(** * Blink sync module: state refresh and video reconciliation

    A shallow embedding of [blinkpy/sync_module.py] (class [BlinkSyncModule])
    together with the properties of its bootstrap, refresh and video-listing
    operations.

    Python values are modelled by [json] (the transport hands back parsed
    JSON, and [None]/[False] sentinels are [JNull]/[JBool false]); numbers
    are integers.  Python exceptions are modelled by [exn], and every method
    is a computation in the monad [M]: it threads the sync module object, the
    logger and the list of transport requests issued so far, and it either
    returns a value or raises.  Mutations made before an exception are kept,
    as they are for a Python object mutated in place.

    Limits of the model: strings are byte strings and [lower] lowercases
    ASCII letters only; JSON numbers are integers; an object is the list of
    its fields, read by the first binding of a key; the transport and the
    camera objects are collaborators that do not raise. *)

From stdpp Require Import gmap strings list fin_maps.
From Stdlib Require Import ZArith Ascii String.

Local Open Scope Z_scope.
Local Set Warnings "-register-all".

(** ** Python values *)

Inductive json : Type :=
| JNull
| JBool (b : bool)
| JNum (z : Z)
| JStr (s : string)
| JList (l : list json)
| JObj (o : list (string * json)).

Inductive exn : Type := KeyError | TypeError | AttributeError.

Inductive outcome (A : Type) : Type :=
| Ok (a : A)
| Raise (e : exn).
Arguments Ok {A} a.
Arguments Raise {A} e.

Global Instance exn_eq_dec : EqDecision exn.
Proof. solve_decision. Defined.

(** Lookup in the field list of an object: the first binding of the key. *)
Fixpoint assoc {V : Type} (k : string) (o : list (string * V)) : option V :=
  match o with
  | [] => None
  | (k', v) :: o' => if String.eqb k k' then Some v else assoc k o'
  end.

(** [v[k]] for a string subscript [k]: only a dict can be subscripted by a
    string; a missing key is a [KeyError], anything else a [TypeError]. *)
Definition getitem (v : json) (k : string) : outcome json :=
  match v with
  | JObj o => match assoc k o with Some x => Ok x | None => Raise KeyError end
  | _ => Raise TypeError
  end.

(** Truth value of an object, as tested by [not v]. *)
Definition truthy (v : json) : bool :=
  match v with
  | JNull => false
  | JBool b => b
  | JNum z => negb (z =? 0)
  | JStr s => negb (String.eqb s "")
  | JList l => match l with [] => false | _ => true end
  | JObj o => match o with [] => false | _ => true end
  end.

Fixpoint is_prefix (p s : string) : bool :=
  match p, s with
  | EmptyString, _ => true
  | String a p', String b s' => Ascii.eqb a b && is_prefix p' s'
  | String _ _, EmptyString => false
  end.

Fixpoint is_substring (p s : string) : bool :=
  is_prefix p s || match s with EmptyString => false | String _ s' => is_substring p s' end.

Definition is_str (k : string) (v : json) : bool :=
  match v with JStr s => String.eqb s k | _ => false end.

(** [k in v] for a string [k]: key membership in a dict, element membership
    in a list, substring test in a string, [TypeError] otherwise. *)
Definition contains (k : string) (v : json) : outcome bool :=
  match v with
  | JObj o => Ok (match assoc k o with Some _ => true | None => false end)
  | JList l => Ok (existsb (is_str k) l)
  | JStr s => Ok (is_substring k s)
  | _ => Raise TypeError
  end.

Fixpoint chars (s : string) : list json :=
  match s with
  | EmptyString => []
  | String a s' => JStr (String a EmptyString) :: chars s'
  end.

(** The elements produced by [for x in v]. *)
Definition py_iter (v : json) : outcome (list json) :=
  match v with
  | JList l => Ok l
  | JObj o => Ok (map (fun kv => JStr (fst kv)) o)
  | JStr s => Ok (chars s)
  | _ => Raise TypeError
  end.

(** ** Dictionary keys

    A value used as a dict key is hashed; lists and dicts are unhashable.
    Values that compare equal are the same key ([True] and [1]). *)

Inductive key : Type := KNone | KInt (z : Z) | KStr (s : string).

Global Instance key_eq_dec : EqDecision key.
Proof. solve_decision. Defined.

Definition key_enc (k : key) : unit + (Z + string) :=
  match k with KNone => inl tt | KInt z => inr (inl z) | KStr s => inr (inr s) end.

Definition key_dec (x : unit + (Z + string)) : key :=
  match x with inl _ => KNone | inr (inl z) => KInt z | inr (inr s) => KStr s end.

Global Instance key_countable : Countable key.
Proof. apply (inj_countable' key_enc key_dec). by intros []. Defined.

Definition to_key (v : json) : option key :=
  match v with
  | JNull => Some KNone
  | JBool b => Some (KInt (if b then 1 else 0))
  | JNum z => Some (KInt z)
  | JStr s => Some (KStr s)
  | JList _ | JObj _ => None
  end.

Definition hash (v : json) : outcome key :=
  match to_key v with Some k => Ok k | None => Raise TypeError end.

(** ** Collaborators *)

(** Modelled from the spec: the camera object ([blinkpy.camera.BlinkCamera])
    is not part of the sources.  The spec gives its contract:
    [update(configPayload, forceCacheBypass)] mutates the camera itself and
    returns nothing.  The model keeps the payloads received, oldest first. *)
Record BlinkCamera : Type := { updates : list (json * bool) }.

Definition new_camera : BlinkCamera := {| updates := [] |}.

Definition update (config : json) (force_cache : bool) (c : BlinkCamera) : BlinkCamera :=
  {| updates := updates c ++ [(config, force_cache)] |}.

(** Modelled from the spec: the [ONLINE] table of
    [blinkpy.helpers.constants] is not part of the sources; the spec documents
    the two status strings ["online"] and ["offline"]. *)
Definition ONLINE : gmap key bool :=
  <[KStr "online" := true]> (<[KStr "offline" := false]> ∅).

(** The owning client handle, read-only from the sync module. *)
Record Blink : Type := {
  auth_header : json;
  blink_region : json;
  blink_region_id : json;
  last_refresh : json;
}.

(** [requests.structures.CaseInsensitiveDict]: the store maps the lowercased
    key to the pair of the key as last set and the value; iteration yields
    the keys as last set.  Keys are strings (ASCII lowercasing). *)
Definition lower_ascii (c : ascii) : ascii :=
  let n := nat_of_ascii c in
  if ((65 <=? n) && (n <=? 90))%nat then ascii_of_nat (n + 32) else c.

Fixpoint lower (s : string) : string :=
  match s with
  | EmptyString => EmptyString
  | String c s' => String (lower_ascii c) (lower s')
  end.

Definition CaseInsensitiveDict : Type := list (string * (string * BlinkCamera)).

Fixpoint store_set {V : Type} (k : string) (v : V) (d : list (string * V)) : list (string * V) :=
  match d with
  | [] => [(k, v)]
  | (k', v') :: d' => if String.eqb k k' then (k, v) :: d' else (k', v') :: store_set k v d'
  end.

Definition cid_keys (d : CaseInsensitiveDict) : list string :=
  map (fun e => fst (snd e)) d.

Definition cid_get (name : json) (d : CaseInsensitiveDict) : outcome BlinkCamera :=
  match name with
  | JStr s => match assoc (lower s) d with
              | Some (_, c) => Ok c
              | None => Raise KeyError
              end
  | _ => Raise AttributeError
  end.

Definition cid_set (name : json) (c : BlinkCamera) (d : CaseInsensitiveDict)
  : outcome CaseInsensitiveDict :=
  match name with
  | JStr s => Ok (store_set (lower s) (s, c) d)
  | _ => Raise AttributeError
  end.

(** ** The sync module object *)

Record BlinkSyncModule : Type := {
  blink : Blink;
  _auth_header : json;
  network_id : json;
  region : json;
  region_id : json;
  name : json;
  serial : json;
  status : json;
  sync_id : json;
  host : json;
  summary : json;
  homescreen : json;
  network_info : json;
  events : json;
  cameras : CaseInsensitiveDict;
  motion : gmap key bool;
  last_record : gmap key json;
  (* attributes that [__init__] does not create: [None] when absent *)
  all_clips : option (gmap key (gmap key json));
  videos : option (gmap key (list json));
  record_dates : option (gmap key (list json));
}.

Definition init (blink : Blink) (network_name network_id : json) : BlinkSyncModule :=
  {| blink := blink;
     _auth_header := auth_header blink;
     network_id := network_id;
     region := blink_region blink;
     region_id := blink_region_id blink;
     name := network_name;
     serial := JNull;
     status := JNull;
     sync_id := JNull;
     host := JNull;
     summary := JNull;
     homescreen := JNull;
     network_info := JNull;
     events := JList [];
     cameras := [];
     motion := ∅;
     last_record := ∅;
     all_clips := None;
     videos := None;
     record_dates := None |}.

Definition set_network_id (v : json) (self : BlinkSyncModule) : BlinkSyncModule :=
  {| blink := blink self; _auth_header := _auth_header self; network_id := v; region := 
     region self; region_id := region_id self; name := name self; serial := serial self; 
     status := status self; sync_id := sync_id self; host := host self; summary := summary 
     self; homescreen := homescreen self; network_info := network_info self; events := events 
     self; cameras := cameras self; motion := motion self; last_record := last_record self; 
     all_clips := all_clips self; videos := videos self; record_dates := record_dates self |}.
Definition set_serial (v : json) (self : BlinkSyncModule) : BlinkSyncModule :=
  {| blink := blink self; _auth_header := _auth_header self; network_id := network_id 
     self; region := region self; region_id := region_id self; name := name self; serial := v; 
     status := status self; sync_id := sync_id self; host := host self; summary := summary 
     self; homescreen := homescreen self; network_info := network_info self; events := events 
     self; cameras := cameras self; motion := motion self; last_record := last_record self; 
     all_clips := all_clips self; videos := videos self; record_dates := record_dates self |}.
Definition set_status (v : json) (self : BlinkSyncModule) : BlinkSyncModule :=
  {| blink := blink self; _auth_header := _auth_header self; network_id := network_id 
     self; region := region self; region_id := region_id self; name := name self; serial := 
     serial self; status := v; sync_id := sync_id self; host := host self; summary := summary 
     self; homescreen := homescreen self; network_info := network_info self; events := events 
     self; cameras := cameras self; motion := motion self; last_record := last_record self; 
     all_clips := all_clips self; videos := videos self; record_dates := record_dates self |}.
Definition set_sync_id (v : json) (self : BlinkSyncModule) : BlinkSyncModule :=
  {| blink := blink self; _auth_header := _auth_header self; network_id := network_id 
     self; region := region self; region_id := region_id self; name := name self; serial := 
     serial self; status := status self; sync_id := v; host := host self; summary := summary 
     self; homescreen := homescreen self; network_info := network_info self; events := events 
     self; cameras := cameras self; motion := motion self; last_record := last_record self; 
     all_clips := all_clips self; videos := videos self; record_dates := record_dates self |}.
Definition set_summary (v : json) (self : BlinkSyncModule) : BlinkSyncModule :=
  {| blink := blink self; _auth_header := _auth_header self; network_id := network_id 
     self; region := region self; region_id := region_id self; name := name self; serial := 
     serial self; status := status self; sync_id := sync_id self; host := host self; summary 
:= v; homescreen := homescreen self; network_info := network_info self; events := events 
     self; cameras := cameras self; motion := motion self; last_record := last_record self; 
     all_clips := all_clips self; videos := videos self; record_dates := record_dates self |}.
Definition set_homescreen (v : json) (self : BlinkSyncModule) : BlinkSyncModule :=
  {| blink := blink self; _auth_header := _auth_header self; network_id := network_id 
     self; region := region self; region_id := region_id self; name := name self; serial := 
     serial self; status := status self; sync_id := sync_id self; host := host self; summary 
:= summary self; homescreen := v; network_info := network_info self; events := events 
     self; cameras := cameras self; motion := motion self; last_record := last_record self; 
     all_clips := all_clips self; videos := videos self; record_dates := record_dates self |}.
Definition set_network_info (v : json) (self : BlinkSyncModule) : BlinkSyncModule :=
  {| blink := blink self; _auth_header := _auth_header self; network_id := network_id 
     self; region := region self; region_id := region_id self; name := name self; serial := 
     serial self; status := status self; sync_id := sync_id self; host := host self; summary 
:= summary self; homescreen := homescreen self; network_info := v; events := events self; 
     cameras := cameras self; motion := motion self; last_record := last_record self; 
     all_clips := all_clips self; videos := videos self; record_dates := record_dates self |}.
Definition set_events (v : json) (self : BlinkSyncModule) : BlinkSyncModule :=
  {| blink := blink self; _auth_header := _auth_header self; network_id := network_id 
     self; region := region self; region_id := region_id self; name := name self; serial := 
     serial self; status := status self; sync_id := sync_id self; host := host self; summary 
:= summary self; homescreen := homescreen self; network_info := network_info self; events 
:= v; cameras := cameras self; motion := motion self; last_record := last_record self; 
     all_clips := all_clips self; videos := videos self; record_dates := record_dates self |}.
Definition set_cameras (v : CaseInsensitiveDict) (self : BlinkSyncModule) : 
BlinkSyncModule :=
  {| blink := blink self; _auth_header := _auth_header self; network_id := network_id 
     self; region := region self; region_id := region_id self; name := name self; serial := 
     serial self; status := status self; sync_id := sync_id self; host := host self; summary 
:= summary self; homescreen := homescreen self; network_info := network_info self; events 
:= events self; cameras := v; motion := motion self; last_record := last_record self; 
     all_clips := all_clips self; videos := videos self; record_dates := record_dates self |}.
Definition set_motion (v : gmap key bool) (self : BlinkSyncModule) : BlinkSyncModule :=
  {| blink := blink self; _auth_header := _auth_header self; network_id := network_id 
     self; region := region self; region_id := region_id self; name := name self; serial := 
     serial self; status := status self; sync_id := sync_id self; host := host self; summary 
:= summary self; homescreen := homescreen self; network_info := network_info self; events 
:= events self; cameras := cameras self; motion := v; last_record := last_record self; 
     all_clips := all_clips self; videos := videos self; record_dates := record_dates self |}.
Definition set_last_record (v : gmap key json) (self : BlinkSyncModule) : BlinkSyncModule 
:=
  {| blink := blink self; _auth_header := _auth_header self; network_id := network_id 
     self; region := region self; region_id := region_id self; name := name self; serial := 
     serial self; status := status self; sync_id := sync_id self; host := host self; summary 
:= summary self; homescreen := homescreen self; network_info := network_info self; events 
:= events self; cameras := cameras self; motion := motion self; last_record := v; 
     all_clips := all_clips self; videos := videos self; record_dates := record_dates self |}.
Definition set_all_clips (v : option (gmap key (gmap key json))) (self : BlinkSyncModule) 
: BlinkSyncModule :=
  {| blink := blink self; _auth_header := _auth_header self; network_id := network_id 
     self; region := region self; region_id := region_id self; name := name self; serial := 
     serial self; status := status self; sync_id := sync_id self; host := host self; summary 
:= summary self; homescreen := homescreen self; network_info := network_info self; events 
:= events self; cameras := cameras self; motion := motion self; last_record := 
     last_record self; all_clips := v; videos := videos self; record_dates := record_dates 
     self |}.
Definition set_videos (v : option (gmap key (list json))) (self : BlinkSyncModule) : 
BlinkSyncModule :=
  {| blink := blink self; _auth_header := _auth_header self; network_id := network_id 
     self; region := region self; region_id := region_id self; name := name self; serial := 
     serial self; status := status self; sync_id := sync_id self; host := host self; summary 
:= summary self; homescreen := homescreen self; network_info := network_info self; events 
:= events self; cameras := cameras self; motion := motion self; last_record := 
     last_record self; all_clips := all_clips self; videos := v; record_dates := record_dates 
     self |}.
Definition set_record_dates (v : option (gmap key (list json))) (self : BlinkSyncModule) 
: BlinkSyncModule :=
  {| blink := blink self; _auth_header := _auth_header self; network_id := network_id 
     self; region := region self; region_id := region_id self; name := name self; serial := 
     serial self; status := status self; sync_id := sync_id self; host := host self; summary 
:= summary self; homescreen := homescreen self; network_info := network_info self; events 
:= events self; cameras := cameras self; motion := motion self; last_record := 
     last_record self; all_clips := all_clips self; videos := videos self; record_dates := v 
|}.

(** ** The monad of methods *)

Inductive level : Type := ERROR | WARNING | DEBUG.

(** Requests of the transport ([blinkpy.api]), with the arguments the sync
    module passes. *)
Inductive request : Type :=
| request_syncmodule (network : json)
| request_sync_events (network : json)
| request_homescreen
| request_network_status (network : json)
| request_cameras (network : json)
| request_videos (time : json) (page : Z).

(** The transport answers every request with a parsed value ([JNull] when
    there is no usable body). *)
Definition transport : Type := request -> json.

Record world : Type := {
  obj : BlinkSyncModule;
  log : list (level * string);
  trace : list request;
}.

Definition M (A : Type) : Type := world -> outcome A * world.

Definition ret {A : Type} (a : A) : M A := fun w => (Ok a, w).

Definition bind {A B : Type} (m : M A) (f : A -> M B) : M B :=
  fun w => match m w with
           | (Ok a, w') => f a w'
           | (Raise e, w') => (Raise e, w')
           end.

Declare Scope method_scope.
Delimit Scope method_scope with method.
Notation "x <- m ;; k" := (bind m (fun x => k))
  (at level 100, m at next level, k at level 200, right associativity) : method_scope.
Notation "m ;; k" := (bind m (fun _ => k))
  (at level 100, k at level 200, right associativity) : method_scope.
Local Open Scope method_scope.

(** A pure step that may raise. *)
Definition lift {A : Type} (o : outcome A) : M A := fun w => (o, w).

(** [try: m except <catches>: handler]. *)
Definition try_except {A : Type} (m : M A) (catches : exn -> bool) (handler : M A) : M A :=
  fun w => match m w with
           | (Raise e, w') => if catches e then handler w' else (Raise e, w')
           | r => r
           end.

Definition key_or_type (e : exn) : bool :=
  match e with KeyError | TypeError => true | AttributeError => false end.
Definition key_error (e : exn) : bool :=
  match e with KeyError => true | _ => false end.
Definition type_error (e : exn) : bool :=
  match e with TypeError => true | _ => false end.

Definition self : M BlinkSyncModule := fun w => (Ok (obj w), w).

Definition modify (f : BlinkSyncModule -> BlinkSyncModule) : M unit :=
  fun w => (Ok tt, {| obj := f (obj w); log := log w; trace := trace w |}).

Definition logger (l : level) (msg : string) : M unit :=
  fun w => (Ok tt, {| obj := obj w; log := log w ++ [(l, msg)]; trace := trace w |}).

Definition call (api : transport) (r : request) : M json :=
  fun w => (Ok (api r), {| obj := obj w; log := log w; trace := trace w ++ [r] |}).

(** [for x in l: body]. *)
Fixpoint for_each {A : Type} (body : A -> M unit) (l : list A) : M unit :=
  match l with
  | [] => ret tt
  | x :: l' => body x ;; for_each body l'
  end.

(** ** Properties and raw fetch helpers *)

Definition online (self : BlinkSyncModule) : outcome bool :=
  match hash (status self) with
  | Raise e => Raise e
  | Ok k => match ONLINE !! k with Some b => Ok b | None => Raise KeyError end
  end.

Definition get_events (api : transport) : M json :=
  s <- self ;;
  response <- call api (request_sync_events (network_id s)) ;;
  try_except (lift (getitem response "event")) key_or_type
    (logger ERROR "Could not extract events" ;; ret (JBool false)).

Definition get_camera_info (api : transport) : M json :=
  s <- self ;;
  response <- call api (request_cameras (network_id s)) ;;
  try_except (lift (getitem response "devicestatus")) key_or_type
    (logger ERROR "Could not extract camera info" ;; ret (JList [])).

(** The getter of the [arm] property:
    [self.network_info['network']['armed']]. *)
Definition arm (self : BlinkSyncModule) : outcome json :=
  match getitem (network_info self) "network" with
  | Ok network => getitem network "armed"
  | Raise e => Raise e
  end.

(** ** New-video detection *)

Definition reset_motion (camera : string) : M unit :=
  modify (fun s => set_motion (<[KStr camera := false]> (motion s)) s).

Definition record_of (clip timestamp : json) : json :=
  JObj [("clip", clip); ("time", timestamp)].

(** The body of the loop over the listing, with its [except KeyError]. *)
Definition motion_entry (entry : json) : M unit :=
  try_except
    (name <- lift (getitem entry "camera_name") ;;
     clip <- lift (getitem entry "address") ;;
     timestamp <- lift (getitem entry "created_at") ;;
     k <- lift (hash name) ;;
     modify (fun s => set_motion (<[k := true]> (motion s)) s) ;;
     modify (fun s => set_last_record (<[k := record_of clip timestamp]> (last_record s)) s))
    key_error
    (logger DEBUG "No new videos since last refresh.").

Definition check_new_videos (api : transport) : M bool :=
  s <- self ;;
  resp <- call api (request_videos (last_refresh (blink s)) 0) ;;
  for_each reset_motion (cid_keys (cameras s)) ;;
  r <- try_except (info <- lift (getitem resp "videos") ;; ret (Some info)) key_or_type
         (logger WARNING "Could not check for motion." ;; ret None) ;;
  match r with
  | None => ret false
  | Some info =>
      entries <- lift (py_iter info) ;;
      for_each motion_entry entries ;;
      ret true
  end.

(** ** Bootstrap and recurring refresh *)

Fixpoint store_alter {V : Type} (f : V -> V) (k : string) (d : list (string * V))
  : list (string * V) :=
  match d with
  | [] => []
  | (k', v) :: d' =>
      if String.eqb k k' then (k', f v) :: d' else (k', v) :: store_alter f k d'
  end.

(** The camera object found under a name is mutated in place. *)
Definition cid_mutate (f : BlinkCamera -> BlinkCamera) (name : json)
    (d : CaseInsensitiveDict) : CaseInsensitiveDict :=
  match name with
  | JStr s => store_alter (fun e => (fst e, f (snd e))) (lower s) d
  | _ => d
  end.

(** [self.cameras[name].update(camera_config, force_cache=force_cache)]. *)
Definition update_camera (name camera_config : json) (force_cache : bool) : M unit :=
  s <- self ;;
  _ <- lift (cid_get name (cameras s)) ;;
  modify (fun s => set_cameras (cid_mutate (update camera_config force_cache) name (cameras s)) s).

Definition start_camera (camera_config : json) : M unit :=
  name <- lift (getitem camera_config "name") ;;
  s <- self ;;
  d <- lift (cid_set name new_camera (cameras s)) ;;
  modify (set_cameras d) ;;
  k <- lift (hash name) ;;
  modify (fun s => set_motion (<[k := false]> (motion s)) s) ;;
  update_camera name camera_config true.

Definition start (api : transport) : M bool :=
  s <- self ;;
  response <- call api (request_syncmodule (network_id s)) ;;
  ok <- try_except
          (v <- lift (getitem response "syncmodule") ;;
           modify (set_summary v) ;;
           s <- self ;;
           n <- lift (getitem (summary s) "network_id") ;;
           modify (set_network_id n) ;;
           ret true)
          key_or_type
          (logger ERROR "Could not retrieve sync module information" ;; ret false) ;;
  if ok : bool then
    try_except
      (s <- self ;;
       v <- lift (getitem (summary s) "id") ;;
       modify (set_sync_id v) ;;
       v <- lift (getitem (summary s) "serial") ;;
       modify (set_serial v) ;;
       v <- lift (getitem (summary s) "status") ;;
       modify (set_status v))
      key_error
      (logger ERROR "Could not extract some sync module info") ;;
    ev <- get_events api ;;
    modify (set_events ev) ;;
    h <- call api request_homescreen ;;
    modify (set_homescreen h) ;;
    s <- self ;;
    n <- call api (request_network_status (network_id s)) ;;
    modify (set_network_info n) ;;
    check_new_videos api ;;
    camera_info <- get_camera_info api ;;
    configs <- lift (py_iter camera_info) ;;
    for_each start_camera configs ;;
    ret true
  else ret false.

Definition refresh_camera (force_cache : bool) (camera_config : json) : M unit :=
  name <- lift (getitem camera_config "name") ;;
  update_camera name camera_config force_cache.

Definition refresh (api : transport) (force_cache : bool) : M unit :=
  ev <- get_events api ;;
  modify (set_events ev) ;;
  h <- call api request_homescreen ;;
  modify (set_homescreen h) ;;
  s <- self ;;
  n <- call api (request_network_status (network_id s)) ;;
  modify (set_network_info n) ;;
  camera_info <- get_camera_info api ;;
  check_new_videos api ;;
  configs <- lift (py_iter camera_info) ;;
  for_each (refresh_camera force_cache) configs.

(** ** Historical video listing *)

(** Reading an attribute that [__init__] did not create. *)
Definition attr {A : Type} (f : BlinkSyncModule -> option A) : M A :=
  s <- self ;;
  lift (match f s with Some a => Ok a | None => Raise AttributeError end).

Definition lookup_item {V : Type} (k : key) (d : gmap key V) : outcome V :=
  match d !! k with Some v => Ok v | None => Raise KeyError end.

(** The first loop: fetch the pages of the range until one stops it. *)
Fixpoint fetch_pages (api : transport) (pages : list Z) (fetched : list json)
  : M (list json) :=
  match pages with
  | [] => ret fetched
  | page_num :: rest =>
      this_page <- call api (request_videos JNull page_num) ;;
      if negb (truthy this_page) then ret fetched
      else
        has_message <- lift (contains "message" this_page) ;;
        if has_message : bool then
          _ <- lift (getitem this_page "message") ;;
          logger WARNING "Could not retrieve videos." ;;
          ret fetched
        else fetch_pages api rest (fetched ++ [this_page])
  end.

(** [clip_date in dates], for hashable values. *)
Definition seen (clip_date : json) (dates : list json) : bool :=
  existsb (fun d => bool_decide (to_key d = to_key clip_date)) dates.

Definition video_of (clip_addr thumb_addr : json) : json :=
  JObj [("clip", clip_addr); ("thumb", thumb_addr)].

(** The first [try] of the loop body: the three fields of the entry, or
    [None] when a [TypeError] was caught (the loop then breaks). *)
Definition read_entry (entry : json) : M (option (json * json * json)) :=
  try_except
    (camera_name <- lift (getitem entry "camera_name") ;;
     clip_addr <- lift (getitem entry "address") ;;
     thumb_addr <- lift (getitem entry "thumbnail") ;;
     ret (Some (camera_name, clip_addr, thumb_addr)))
    type_error
    (logger WARNING "Could not extract video information." ;; ret None).

(** The second [try]: [self.all_clips[camera_name][clip_date] = clip_addr],
    with a new inner dict when the camera has none. *)
Definition store_clip (camera_name clip_date clip_addr : json) : M unit :=
  try_except
    (clips <- attr all_clips ;;
     cn <- lift (hash camera_name) ;;
     dates <- lift (lookup_item cn clips) ;;
     cd <- lift (hash clip_date) ;;
     modify (set_all_clips (Some (<[cn := <[cd := clip_addr]> dates]> clips))))
    key_error
    (cd <- lift (hash clip_date) ;;
     clips <- attr all_clips ;;
     cn <- lift (hash camera_name) ;;
     modify (set_all_clips (Some (<[cn := {[cd := clip_addr]}]> clips)))).

(** The third [try]: append to [self.videos[camera_name]], or start its list. *)
Definition append_video (camera_name clip_addr thumb_addr : json) : M unit :=
  try_except
    (vids <- attr videos ;;
     cn <- lift (hash camera_name) ;;
     l <- lift (lookup_item cn vids) ;;
     modify (set_videos (Some (<[cn := l ++ [video_of clip_addr thumb_addr]]> vids))))
    key_error
    (vids <- attr videos ;;
     cn <- lift (hash camera_name) ;;
     modify (set_videos (Some (<[cn := [video_of clip_addr thumb_addr]]> vids)))).

(** The body of the loop over a page's entries; [None] is [break]. *)
Definition video_entry (entry : json) (all_dates : gmap key (list json))
  : M (option (gmap key (list json))) :=
  r <- read_entry entry ;;
  match r with
  | None => ret None
  | Some (camera_name, clip_addr, thumb_addr) =>
      clip_date <- lift (getitem entry "created_at") ;;
      store_clip camera_name clip_date clip_addr ;;
      cn <- lift (hash camera_name) ;;
      let dates := default [] (all_dates !! cn) in
      if seen clip_date dates then ret (Some (<[cn := dates]> all_dates))
      else
        append_video camera_name clip_addr thumb_addr ;;
        ret (Some (<[cn := dates ++ [clip_date]]> all_dates))
  end.

Fixpoint page_entries (entries : list json) (all_dates : gmap key (list json))
  : M (gmap key (list json)) :=
  match entries with
  | [] => ret all_dates
  | entry :: rest =>
      r <- video_entry entry all_dates ;;
      match r with
      | None => ret all_dates
      | Some all_dates' => page_entries rest all_dates'
      end
  end.

Fixpoint all_pages (pages : list json) (all_dates : gmap key (list json))
  : M (gmap key (list json)) :=
  match pages with
  | [] => ret all_dates
  | page :: rest =>
      entries <- lift (py_iter page) ;;
      all_dates' <- page_entries entries all_dates ;;
      all_pages rest all_dates'
  end.

(** The second loop and the end of [get_videos]: the entries of the pages
    fetched are merged into [all_clips] and [videos]. *)
Definition index_pages (fetched : list json) : M (gmap key (list json)) :=
  logger DEBUG "Getting videos from page %s through %s" ;;
  all_dates <- all_pages fetched ∅ ;;
  modify (set_record_dates (Some all_dates)) ;;
  logger DEBUG "Retrieved a total of %s records" ;;
  attr videos.

(** [fetched] is the local list [videos] of the source. *)
Definition get_videos (api : transport) (start_page end_page : Z)
  : M (gmap key (list json)) :=
  fetched <- fetch_pages api (seqZ start_page (end_page + 1 - start_page)) [] ;;
  index_pages fetched.

(** * Vocabulary of the properties *)

(** ** Shapes of responses *)

(** The value is a dict holding the key. *)
Definition has_key (k : string) (v : json) : bool :=
  match v with
  | JObj o => match assoc k o with Some _ => true | None => false end
  | _ => false
  end.

(** ** New-video detection *)

(** The [motion] mapping once the flags of the given camera names are reset. *)
Definition reset_all (names : list string) (m : gmap key bool) : gmap key bool :=
  fold_left (fun m camera => <[KStr camera := false]> m) names m.

(** What a listing entry contributes: the camera key and the record stored in
    [last_record], or the exception raised while reading the entry. *)
Definition new_clip (entry : json) : outcome (key * json) :=
  match getitem entry "camera_name" with
  | Raise e => Raise e
  | Ok name =>
      match getitem entry "address" with
      | Raise e => Raise e
      | Ok clip =>
          match getitem entry "created_at" with
          | Raise e => Raise e
          | Ok timestamp =>
              match hash name with
              | Raise e => Raise e
              | Ok k => Ok (k, record_of clip timestamp)
              end
          end
      end
  end.

(** The sync module once a new clip of the camera key [k] is recorded. *)
Definition record_clip (k : key) (r : json) (s : BlinkSyncModule) : BlinkSyncModule :=
  set_last_record (<[k := r]> (last_record s)) (set_motion (<[k := true]> (motion s)) s).

(** The request that [check_new_videos] issues. *)
Definition listing_request (w : world) : request :=
  request_videos (last_refresh (blink (obj w))) 0.

(** The world in which the listing is examined: request issued, flags of the
    known cameras reset. *)
Definition after_reset (w : world) : world :=
  {| obj := set_motion (reset_all (cid_keys (cameras (obj w))) (motion (obj w))) (obj w);
     log := log w;
     trace := trace w ++ [listing_request w] |}.

(** The entry is a qualifying new clip of the camera key [k]. *)
Definition clip_for (k : key) (entry : json) : bool :=
  match new_clip entry with
  | Ok (k', _) => bool_decide (k' = k)
  | Raise _ => false
  end.

(** The response holds a listing with a qualifying new clip of [k]. *)
Definition clip_in (k : key) (resp : json) : bool :=
  match getitem resp "videos" with
  | Ok info => match py_iter info with
               | Ok entries => existsb (clip_for k) entries
               | Raise _ => false
               end
  | Raise _ => false
  end.

(** The value can be used as a dict key. *)
Definition hashable (v : json) : bool :=
  match to_key v with Some _ => true | None => false end.

(** A listing entry that is a dict, with a hashable camera name if any. *)
Definition listing_entry_ok (entry : json) : bool :=
  match entry with
  | JObj o => match assoc "camera_name" o with
              | Some name => hashable name
              | None => true
              end
  | _ => false
  end.

(** ** Frames *)

(** A reflexive and transitive relation between the world before and after
    a method. *)
Record frame : Type := {
  rel :> world -> world -> Prop;
  rel_refl : forall w, rel w w;
  rel_trans : forall w1 w2 w3, rel w1 w2 -> rel w2 w3 -> rel w1 w3;
}.

(** The method keeps the frame, whether it returns or raises. *)
Definition preserves {A : Type} (F : frame) (m : M A) : Prop :=
  forall w, F w (snd (m w)).

(** The transport is not called. *)
Definition same_trace : frame.
Proof.
  refine {| rel := fun w w' => trace w' = trace w |}.
  - reflexivity.
  - intros w1 w2 w3 H12 H23. congruence.
Defined.

(** No camera is created or removed: the lowercased keys of the store stay. *)
Definition same_camera_keys : frame.
Proof.
  refine {| rel := fun w w' => map fst (cameras (obj w')) = map fst (cameras (obj w)) |}.
  - reflexivity.
  - intros w1 w2 w3 H12 H23. congruence.
Defined.

(** ** History pages *)

(** The request that [get_videos] issues for a page. *)
Definition page_request (page_num : Z) : request := request_videos JNull page_num.






(** ** Sentinels and camera info *)

(** The value returned by a raw fetch helper, and what it logs. *)
Definition or_else (o : outcome json) (sentinel : json) : json :=
  match o with Ok v => v | Raise _ => sentinel end.

Definition error_log (o : outcome json) (msg : string) : list (level * string) :=
  match o with Ok _ => [] | Raise _ => [(ERROR, msg)] end.

(** The identity of the hub and its cameras are left alone. *)
Definition same_hub : frame.
Proof.
  refine {| rel := fun w w' => cameras (obj w') = cameras (obj w) /\
                               network_id (obj w') = network_id (obj w) /\
                               blink (obj w') = blink (obj w) |}.
  - intros w. repeat split.
  - intros w1 w2 w3 (Hc & Hn & Hb) (Hc' & Hn' & Hb'). repeat split; congruence.
Defined.

(** The video-listing response is tolerated by [check_new_videos]: it has no
    [videos] value, or that value is a list of dicts with hashable names. *)
Definition listing_ok (resp : json) : bool :=
  match getitem resp "videos" with
  | Ok (JList entries) => forallb listing_entry_ok entries
  | Ok _ => false
  | Raise _ => true
  end.

(** The camera-info list that [refresh] and [start] iterate over. *)
Definition camera_info_of (api : transport) (network : json) : json :=
  or_else (getitem (api (request_cameras network)) "devicestatus") (JList []).

(** The name is a key of the mapping, whatever its case. *)
Definition knows (d : CaseInsensitiveDict) (s : string) : bool :=
  match assoc (lower s) d with Some _ => true | None => false end.

(** A camera-info entry naming a camera of the [cameras] mapping. *)
Definition known_camera (d : CaseInsensitiveDict) (camera_config : json) : bool :=
  match getitem camera_config "name" with
  | Ok (JStr s) => knows d s
  | _ => false
  end.


(** The cameras once the given entries have been passed to their cameras. *)
Definition refresh_all (force_cache : bool) (configs : list json) (d : CaseInsensitiveDict)
  : CaseInsensitiveDict :=
  fold_left
    (fun d camera_config =>
       cid_mutate (update camera_config force_cache)
         (or_else (getitem camera_config "name") JNull) d)
    configs d.

(** A camera-info entry that [start] can set up: a dict with a string name. *)
Definition named_camera (camera_config : json) : bool :=
  match getitem camera_config "name" with
  | Ok (JStr _) => true
  | _ => false
  end.


(** ** Tolerated history pages *)

(** A history entry that is a dict with the four fields read by
    [get_videos], a hashable camera name and a hashable creation time. *)
Definition video_entry_ok (entry : json) : bool :=
  match getitem entry "camera_name", getitem entry "address",
        getitem entry "thumbnail", getitem entry "created_at" with
  | Ok camera_name, Ok _, Ok _, Ok clip_date => hashable camera_name && hashable clip_date
  | _, _, _, _ => false
  end.




(** ** Further vocabulary *)

Definition is_dict (v : json) : bool :=
  match v with JObj _ => true | _ => false end.

(** Only [cameras], [motion] and [last_record] may differ. *)
Definition mutable_state : frame.
Proof.
  refine {| rel := fun w w' =>
              obj w' = set_last_record (last_record (obj w'))
                         (set_motion (motion (obj w'))
                            (set_cameras (cameras (obj w')) (obj w))) |}.
  - intros w. destruct (obj w). reflexivity.
  - intros w1 w2 w3 H12 H23. rewrite H23, H12. reflexivity.
Defined.

(** The fields that only [start] and [get_videos] assign are left alone. *)
Definition same_identity : frame.
Proof.
  refine {| rel := fun w w' =>
              network_id (obj w') = network_id (obj w) /\
              summary (obj w') = summary (obj w) /\
              sync_id (obj w') = sync_id (obj w) /\
              serial (obj w') = serial (obj w) /\
              status (obj w') = status (obj w) /\
              all_clips (obj w') = all_clips (obj w) /\
              videos (obj w') = videos (obj w) /\
              record_dates (obj w') = record_dates (obj w) |}.
  - intros w. repeat split.
  - intros w1 w2 w3 H12 H23.
    destruct H12 as (?&?&?&?&?&?&?&?), H23 as (?&?&?&?&?&?&?&?).
    repeat split; congruence.
Defined.

(** An instance without the [videos] attribute stays without it. *)
Definition no_videos : frame.
Proof.
  refine {| rel := fun w w' => videos (obj w) = None -> videos (obj w') = None |}.
  - intros w H. exact H.
  - intros w1 w2 w3 H12 H23 H. apply H23, H12, H.
Defined.

(** The name of a camera-info entry (empty when it has no string name). *)
Definition camera_name_of (camera_config : json) : string :=
  match getitem camera_config "name" with
  | Ok (JStr s) => s
  | _ => ""
  end.

(** The payloads that the entries naming the lowercased key [k] deliver. *)
Definition delivered (force_cache : bool) (k : string) (configs : list json)
  : list (json * bool) :=
  map (fun c => (c, force_cache))
    (List.filter (fun c => String.eqb (lower (camera_name_of c)) k) configs).

(** What [refresh] and [start] store from the three first responses. *)
Definition events_of (api : transport) (network : json) : json :=
  or_else (getitem (api (request_sync_events network)) "event") (JBool false).

(** The sync module once the second [try] of [start] has run on the module
    payload [v]: the assignments stop at the first missing key. *)
Definition identity_of (v : json) (s : BlinkSyncModule) : BlinkSyncModule :=
  match getitem v "id" with
  | Raise _ => s
  | Ok i =>
      match getitem v "serial" with
      | Raise _ => set_sync_id i s
      | Ok se =>
          match getitem v "status" with
          | Raise _ => set_serial se (set_sync_id i s)
          | Ok st => set_status st (set_serial se (set_sync_id i s))
          end
      end
  end.

(** The rest of [start] once both [try] blocks are over. *)
Definition start_tail (api : transport) : M bool :=
  ev <- get_events api ;;
  modify (set_events ev) ;;
  h <- call api request_homescreen ;;
  modify (set_homescreen h) ;;
  s <- self ;;
  n <- call api (request_network_status (network_id s)) ;;
  modify (set_network_info n) ;;
  check_new_videos api ;;
  camera_info <- get_camera_info api ;;
  configs <- lift (py_iter camera_info) ;;
  for_each start_camera configs ;;
  ret true.






(** A truthy page on which the [message] test or the [message] lookup of
    [get_videos] fails: a number, [True], or a list or string that contains
    ["message"]. *)
Definition unreadable_page (page : json) : bool :=
  truthy page && negb (is_dict page)
  && match contains "message" page with Ok false => false | _ => true end.


(** The sync module once the entries of a listing are processed in order:
    an entry that reads completely records its clip, any other is skipped. *)
Definition record_all (entries : list json) (s : BlinkSyncModule) : BlinkSyncModule :=
  fold_left
    (fun s entry => match new_clip entry with
                    | Ok (k, r) => record_clip k r s
                    | Raise _ => s
                    end)
    entries s.

(** The listing entries that [check_new_videos] skips. *)
Definition skipped (entries : list json) : list json :=
  List.filter (fun entry => match new_clip entry with Ok _ => false | Raise _ => true end)
    entries.

(** * Concrete instances *)

(** A client handle and a freshly constructed sync module. *)
Definition blink0 : Blink :=
  {| auth_header := JStr "token"; blink_region := JStr "u034";
     blink_region_id := JStr "rest-u034"; last_refresh := JNum 0 |}.

Definition fresh : world :=
  {| obj := init blink0 (JStr "home") (JNum 7); log := []; trace := [] |}.

(** A transport without usable bodies. *)
Definition api_down : transport := fun _ => JNull.

(** A transport whose module status has a [syncmodule] value without
    [network_id]. *)
Definition api_no_network : transport :=
  fun r => match r with
           | request_syncmodule _ => JObj [("syncmodule", JObj [("id", JNum 1)])]
           | _ => JNull
           end.

Definition armed_status : BlinkSyncModule := set_status (JStr "armed") (obj fresh).

(** A transport for a hub with one camera, one new clip in the listing and
    the same clip on the first page of the history. *)
Definition clip1 : json :=
  JObj [("camera_name", JStr "Cam1"); ("address", JStr "/a1");
        ("thumbnail", JStr "/th1"); ("created_at", JStr "t1")].

Definition api_home : transport :=
  fun r => match r with
           | request_syncmodule _ =>
               JObj [("syncmodule",
                      JObj [("network_id", JNum 9); ("id", JNum 1);
                            ("serial", JStr "G8T1"); ("status", JStr "online")])]
           | request_sync_events _ => JObj [("event", JList [])]
           | request_cameras _ => JObj [("devicestatus", JList [JObj [("name", JStr "Cam1")]])]
           | request_videos JNull 0 => JList [clip1]
           | request_videos JNull _ => JList []
           | request_videos _ _ => JObj [("videos", JList [clip1])]
           | _ => JNull
           end.

(** The sync module after a successful bootstrap. *)
Definition started : world := snd (start api_home fresh).

(** A listing naming a camera that the hub does not know, and an empty one. *)
Definition api_ghost : transport :=
  fun r => match r with
           | request_videos _ _ =>
               JObj [("videos",
                      JList [JObj [("camera_name", JStr "Ghost"); ("address", JStr "/g1");
                                   ("created_at", JStr "t0")]])]
           | _ => JNull
           end.

Definition api_quiet : transport :=
  fun r => match r with
           | request_videos _ _ => JObj [("videos", JList [])]
           | _ => JNull
           end.

(** The sync module after a check whose listing names the unknown camera. *)
Definition ghost_seen : world := snd (check_new_videos api_ghost fresh).







(** The bootstrapped sync module, given the attributes of the history. *)
Definition indexed : world :=
  {| obj := set_videos (Some ∅) (set_all_clips (Some ∅) (obj started));
     log := []; trace := [] |}.

(** A listing whose second entry is a string: the third is never read. *)
Definition api_broken_listing : transport :=
  fun r => match r with
           | request_videos _ _ =>
               JObj [("videos",
                      JList [JObj [("camera_name", JStr "Cam1"); ("address", JStr "/a1");
                                   ("created_at", JStr "t1")];
                             JStr "oops";
                             JObj [("camera_name", JStr "Cam2"); ("address", JStr "/b1");
                                   ("created_at", JStr "t2")]])]
           | _ => JNull
           end.

(** The network is armed; one camera is named twice, in two casings. *)
Definition api_armed : transport :=
  fun r => match r with
           | request_network_status _ => JObj [("network", JObj [("armed", JBool true)])]
           | request_cameras _ =>
               JObj [("devicestatus",
                      JList [JObj [("name", JStr "CAM1"); ("battery", JNum 3)];
                             JObj [("name", JStr "cam1"); ("battery", JNum 2)]])]
           | request_videos _ _ => JObj [("videos", JList [])]
           | _ => JNull
           end.

(** A module payload with [serial] and [status] but without [id]. *)
Definition api_no_id : transport :=
  fun r => match r with
           | request_syncmodule _ =>
               JObj [("syncmodule",
                      JObj [("network_id", JNum 9); ("serial", JStr "G8T1");
                            ("status", JStr "online")])]
           | _ => JNull
           end.







(** Page 0 holds a clip and page 1 is the number 5. *)
Definition api_number_page : transport :=
  fun r => match r with
           | request_videos _ 0 => JList [clip1]
           | request_videos _ 1 => JNum 5
           | _ => JNull
           end.

(** A listing with an entry that has no [address] between two clips of the
    same camera. *)
Definition api_gap_listing : transport :=
  fun r => match r with
           | request_videos _ _ =>
               JObj [("videos",
                      JList [JObj [("camera_name", JStr "Cam1"); ("address", JStr "/a1");
                                   ("created_at", JStr "t1")];
                             JObj [("camera_name", JStr "Cam1"); ("created_at", JStr "t2")];
                             JObj [("camera_name", JStr "Cam1"); ("address", JStr "/a3");
                                   ("created_at", JStr "t3")]])]
           | _ => JNull
           end.

(** * Properties *)

(** ** Shapes of responses *)

Lemma getitem_absent (k : string) (v : json) :
  has_key k v = false -> exists e, getitem v k = Raise e /\ key_or_type e = true.
Proof.
  destruct v as [| | | | |o]; simpl; try (intros _; exists TypeError; split; reflexivity).
  destruct (assoc k o); [discriminate|].
  intros _. exists KeyError. split; reflexivity.
Qed.

Lemma getitem_present (k : string) (v : json) :
  has_key k v = true -> exists x, getitem v k = Ok x.
Proof.
  destruct v as [| | | | |o]; simpl; try discriminate.
  destruct (assoc k o) as [x|]; [|discriminate].
  intros _. exists x. reflexivity.
Qed.

Lemma getitem_raises (k : string) (v : json) (e : exn) :
  getitem v k = Raise e -> key_or_type e = true.
Proof.
  destruct v as [| | | | |o]; simpl; intros H;
    try (inversion H; reflexivity).
  destruct (assoc k o); [discriminate|]. inversion H. reflexivity.
Qed.

(** ** Running a method

    Equations that unfold one step of a method applied to a world. *)

Lemma run_bind {A B : Type} (m : M A) (k : A -> M B) (w : world) :
  bind m k w = match m w with
               | (Ok a, w') => k a w'
               | (Raise e, w') => (Raise e, w')
               end.
Proof. reflexivity. Qed.

Lemma run_try {A : Type} (m : M A) (c : exn -> bool) (h : M A) (w : world) :
  try_except m c h w = match m w with
                       | (Raise e, w') => if c e then h w' else (Raise e, w')
                       | r => r
                       end.
Proof. reflexivity. Qed.

Lemma for_each_app {A : Type} (body : A -> M unit) (l1 l2 : list A) (w : world) :
  for_each body (l1 ++ l2) w = bind (for_each body l1) (fun _ => for_each body l2) w.
Proof.
  revert w. induction l1 as [|x l1 IH]; intros w; simpl.
  - reflexivity.
  - rewrite !run_bind. destruct (body x w) as [[[]|e] w1]; [|reflexivity].
    rewrite IH, run_bind. reflexivity.
Qed.

Global Opaque bind try_except.

(** One step of a run recorded in a hypothesis: expose the first action of
    the method and execute it when it is a primitive one. *)
Ltac step H :=
  first [rewrite run_bind in H | rewrite run_try in H];
  cbv beta iota delta [self call modify logger ret lift] in H;
  simpl obj in H; simpl log in H; simpl trace in H.

(** The same on the goal. *)
Ltac gstep :=
  first [rewrite run_bind | rewrite run_try];
  cbv beta iota delta [self call modify logger ret lift];
  simpl obj; simpl log; simpl trace.

(** ** Bootstrap failure *)

Lemma bind_not_false {A : Type} (m : M A) (k : A -> M bool) (w : world) :
  (forall a w', fst (k a w') <> Ok false) -> fst (bind m k w) <> Ok false.
Proof.
  intros Hk. rewrite run_bind. destruct (m w) as [[a|e] w']; simpl; [apply Hk|discriminate].
Qed.

(** What [start] does when its first [try] block fails: either nothing was
    assigned, or only [summary]. *)
Lemma start_false (api : transport) (w w' : world) :
  start api w = (Ok false, w') ->
  let response := api (request_syncmodule (network_id (obj w))) in
  (has_key "syncmodule" response = false /\ obj w' = obj w) \/
  (exists v, getitem response "syncmodule" = Ok v /\ has_key "network_id" v = false /\
             obj w' = set_summary v (obj w)).
Proof.
  intros Hrun response. unfold start in Hrun.
  do 2 step Hrun. fold response in Hrun. do 3 step Hrun.
  destruct (getitem response "syncmodule") as [v|e] eqn:Hresp.
  - do 3 step Hrun. simpl summary in Hrun.
    destruct (getitem v "network_id") as [n|e] eqn:Hnet.
    + step Hrun. exfalso.
      match type of Hrun with ?m ?w0 = _ =>
        assert (Hne : fst (m w0) <> Ok false)
          by (repeat (apply bind_not_false; intros); discriminate)
      end.
      rewrite Hrun in Hne. apply Hne. reflexivity.
    + rewrite (getitem_raises _ _ _ Hnet) in Hrun. step Hrun.
      inversion Hrun; subst. right. exists v.
      split; [reflexivity|]. split; [|reflexivity].
      destruct (has_key "network_id" v) eqn:Hk; [|reflexivity].
      destruct (getitem_present _ _ Hk) as [x Hx]. congruence.
  - rewrite (getitem_raises _ _ _ Hresp) in Hrun. step Hrun.
    inversion Hrun; subst. left. split.
    + destruct (has_key "syncmodule" response) eqn:Hk; [|reflexivity].
      destruct (getitem_present _ _ Hk) as [x Hx]. congruence.
    + reflexivity.
Qed.

Lemma set_summary_same (s : BlinkSyncModule) : set_summary (summary s) s = s.
Proof. destruct s; reflexivity. Qed.

(** C3. When the module-status response is missing, is not a dict, or has no
    [syncmodule] key, [start] returns [False] and [sync_id], [serial] and
    [status] keep the values they had before the call. *)
Theorem start_without_syncmodule (api : transport) (w : world) :
  has_key "syncmodule" (api (request_syncmodule (network_id (obj w)))) = false ->
  fst (start api w) = Ok false /\
  sync_id (obj (snd (start api w))) = sync_id (obj w) /\
  serial (obj (snd (start api w))) = serial (obj w) /\
  status (obj (snd (start api w))) = status (obj w).
Proof.
  intros Hkey. destruct (getitem_absent _ _ Hkey) as (e & He & Hc).
  assert (Hrun : start api w =
                 (Ok false,
                  {| obj := obj w;
                     log := log w ++ [(ERROR, "Could not retrieve sync module information")];
                     trace := trace w ++ [request_syncmodule (network_id (obj w))] |})).
  { unfold start. do 5 gstep. rewrite He, Hc. gstep. reflexivity. }
  rewrite Hrun. simpl. repeat split.
Qed.

Lemma start_without_syncmodule_witness :
  has_key "syncmodule" (api_down (request_syncmodule (network_id (obj fresh)))) = false /\
  fst (start api_down fresh) = Ok false /\
  sync_id (obj (snd (start api_down fresh))) = sync_id (obj fresh) /\
  serial (obj (snd (start api_down fresh))) = serial (obj fresh) /\
  status (obj (snd (start api_down fresh))) = status (obj fresh).
Proof.
  split; [reflexivity|]. apply (start_without_syncmodule api_down fresh). reflexivity.
Defined.

(** C10. Whenever [start] returns [False], every field of the sync module
    other than [summary] is what it was before the call: [network_id] keeps
    the constructor-supplied value and [events], [cameras], [motion],
    [last_record], [homescreen] and [network_info] are untouched.  [summary]
    is assigned only when the response has a [syncmodule] value that has no
    [network_id]. *)
Theorem start_false_frame (api : transport) (w : world) :
  fst (start api w) = Ok false ->
  let s := obj w in
  let s' := obj (snd (start api w)) in
  s' = set_summary (summary s') s /\
  network_id s' = network_id s /\ events s' = events s /\
  cameras s' = cameras s /\ motion s' = motion s /\
  last_record s' = last_record s /\ homescreen s' = homescreen s /\
  network_info s' = network_info s /\
  (summary s' = summary s \/
   exists v, getitem (api (request_syncmodule (network_id s))) "syncmodule" = Ok v /\
             has_key "network_id" v = false /\ summary s' = v).
Proof.
  intros Hret s s'. subst s'.
  destruct (start api w) as [r w'] eqn:Hrun. simpl in Hret. subst r. simpl snd.
  destruct (start_false api w w' Hrun) as [[_ Hobj]|(v & Hv & Hk & Hobj)]; rewrite Hobj.
  - fold s. rewrite set_summary_same. repeat split. left. reflexivity.
  - fold s. simpl. repeat split. right. exists v. repeat split; assumption.
Qed.

Lemma start_false_frame_witness :
  fst (start api_no_network fresh) = Ok false /\
  network_id (obj (snd (start api_no_network fresh))) = JNum 7 /\
  summary (obj (snd (start api_no_network fresh))) = JObj [("id", JNum 1)].
Proof.
  assert (H : fst (start api_no_network fresh) = Ok false) by (vm_compute; reflexivity).
  split; [exact H|].
  destruct (start_false_frame api_no_network fresh H) as (_ & Hn & _).
  split; [exact Hn|]. vm_compute. reflexivity.
Defined.

(** ** The [online] property *)

Lemma ONLINE_lookup (k : key) :
  ONLINE !! k = match k with
                | KStr str => if decide (str = "online") then Some true
                              else if decide (str = "offline") then Some false
                              else None
                | _ => None
                end.
Proof.
  unfold ONLINE. destruct k as [|z|str].
  - rewrite !lookup_insert_ne by discriminate. apply lookup_empty.
  - rewrite !lookup_insert_ne by discriminate. apply lookup_empty.
  - destruct (decide (str = "online")) as [->|Hon].
    + apply lookup_insert_eq.
    + rewrite lookup_insert_ne by congruence.
      destruct (decide (str = "offline")) as [->|Hoff].
      * apply lookup_insert_eq.
      * rewrite lookup_insert_ne by congruence. apply lookup_empty.
Qed.

(** C9. [online] is a function of [status] alone, by lookup in the [ONLINE]
    table: it is [True] exactly for the status ["online"], [False] exactly
    for ["offline"], and for any other status it raises instead of
    defaulting: a [KeyError] for every other string and for [None] (a
    [TypeError] when the status is not even hashable). *)
Theorem online_lookup (s : BlinkSyncModule) :
  (online s = Ok true <-> status s = JStr "online") /\
  (online s = Ok false <-> status s = JStr "offline") /\
  (status s <> JStr "online" -> status s <> JStr "offline" ->
   online s = match to_key (status s) with
              | Some _ => Raise KeyError
              | None => Raise TypeError
              end) /\
  (forall str, status s = JStr str -> str <> "online" -> str <> "offline" ->
               online s = Raise KeyError) /\
  (status s = JNull -> online s = Raise KeyError) /\
  (forall s2, status s2 = status s -> online s2 = online s).
Proof.
  unfold online, hash.
  destruct (status s) as [|b|z|str|l|o] eqn:Hst; simpl; rewrite ?ONLINE_lookup;
    repeat split; try congruence; try discriminate;
    try (intros s2 ->; simpl; rewrite ?ONLINE_lookup; reflexivity);
    try (intros str' [= <-] Hon Hoff; repeat case_decide; congruence).
  all: repeat case_decide; subst; try congruence; try discriminate.
Qed.

Lemma online_lookup_witness : online armed_status = Raise KeyError.
Proof.
  destruct (online_lookup armed_status) as (_ & _ & _ & Hstr & _).
  apply (Hstr "armed"); [reflexivity | discriminate | discriminate].
Defined.

(** ** New-video detection *)

Lemma reset_all_other (names : list string) (m : gmap key bool) (k : key) :
  (forall camera, In camera names -> k <> KStr camera) ->
  reset_all names m !! k = m !! k.
Proof.
  revert m. induction names as [|c names IH]; intros m Hk; simpl.
  - reflexivity.
  - rewrite IH by (intros c' Hc'; apply Hk; right; exact Hc').
    apply lookup_insert_ne. intros Heq. apply (Hk c); [left; reflexivity|].
    symmetry. exact Heq.
Qed.

Lemma reset_all_in (names : list string) (m : gmap key bool) (camera : string) :
  In camera names -> reset_all names m !! KStr camera = Some false.
Proof.
  revert m. induction names as [|c names IH]; intros m Hin; simpl.
  - destruct Hin.
  - destruct (in_dec string_dec camera names) as [Hlater|Hnot].
    + apply IH. exact Hlater.
    + destruct Hin as [->|Hin]; [|contradiction].
      rewrite reset_all_other by (intros c' Hc' [= ->]; contradiction).
      apply lookup_insert_eq.
Qed.

Lemma reset_motion_run (names : list string) (w : world) :
  for_each reset_motion names w =
  (Ok tt, {| obj := set_motion (reset_all names (motion (obj w))) (obj w);
             log := log w; trace := trace w |}).
Proof.
  revert w. induction names as [|c names IH]; intros w; simpl.
  - destruct w as [[] l t]; reflexivity.
  - gstep. unfold reset_motion at 1. cbv beta iota delta [modify]. rewrite IH.
    reflexivity.
Qed.

Lemma motion_entry_run (entry : json) (w : world) :
  motion_entry entry w =
  match new_clip entry with
  | Ok (k, r) =>
      (Ok tt, {| obj := record_clip k r (obj w); log := log w; trace := trace w |})
  | Raise KeyError =>
      (Ok tt, {| obj := obj w;
                 log := log w ++ [(DEBUG, "No new videos since last refresh.")];
                 trace := trace w |})
  | Raise e => (Raise e, w)
  end.
Proof.
  unfold motion_entry, new_clip. repeat gstep.
  destruct (getitem entry "camera_name") as [name|[]]; try reflexivity.
  repeat gstep. destruct (getitem entry "address") as [clip|[]]; try reflexivity.
  repeat gstep. destruct (getitem entry "created_at") as [timestamp|[]]; try reflexivity.
  repeat gstep. destruct (hash name) as [k|[]]; reflexivity.
Qed.

Lemma check_new_videos_run (api : transport) (w : world) :
  check_new_videos api w =
  match getitem (api (listing_request w)) "videos" with
  | Raise _ =>
      (Ok false, {| obj := obj (after_reset w);
                    log := log w ++ [(WARNING, "Could not check for motion.")];
                    trace := trace (after_reset w) |})
  | Ok info =>
      match py_iter info with
      | Raise e => (Raise e, after_reset w)
      | Ok entries =>
          bind (for_each motion_entry entries) (fun _ => ret true) (after_reset w)
      end
  end.
Proof.
  unfold check_new_videos. do 3 gstep. rewrite reset_motion_run.
  simpl obj. simpl log. simpl trace. do 3 gstep. fold (listing_request w).
  destruct (getitem (api (listing_request w)) "videos") as [info|e] eqn:Hinfo.
  - gstep. unfold after_reset. destruct (py_iter info); reflexivity.
  - rewrite (getitem_raises _ _ _ Hinfo). gstep. reflexivity.
Qed.

Lemma listing_entry_ok_reads (entry : json) :
  listing_entry_ok entry = true ->
  (exists k r, new_clip entry = Ok (k, r)) \/ new_clip entry = Raise KeyError.
Proof.
  unfold listing_entry_ok, new_clip, hash, hashable.
  destruct entry as [| | | | |o]; try discriminate. simpl.
  destruct (assoc "camera_name" o) as [name|]; [|right; reflexivity].
  destruct (to_key name) as [k|]; [|discriminate]. intros _.
  destruct (assoc "address" o) as [clip|]; [|right; reflexivity].
  destruct (assoc "created_at" o) as [timestamp|]; [|right; reflexivity].
  left. eauto.
Qed.

Lemma motion_entry_ok (entry : json) (w : world) :
  listing_entry_ok entry = true -> fst (motion_entry entry w) = Ok tt.
Proof.
  intros Hok. rewrite motion_entry_run.
  destruct (listing_entry_ok_reads entry Hok) as [(k & r & ->)| ->]; reflexivity.
Qed.

Lemma motion_entries_ok (entries : list json) (w : world) :
  forallb listing_entry_ok entries = true ->
  fst (for_each motion_entry entries w) = Ok tt.
Proof.
  revert w. induction entries as [|entry entries IH]; intros w Hok; simpl in *.
  - reflexivity.
  - apply andb_prop in Hok. destruct Hok as [Hentry Hrest].
    rewrite run_bind. pose proof (motion_entry_ok entry w Hentry) as Hrun.
    destruct (motion_entry entry w) as [[[]|e] w1]; simpl in Hrun; [|discriminate].
    apply IH. exact Hrest.
Qed.

(** Entries that are not a new clip of [k] leave its flag and record alone,
    whether or not the loop runs to its end. *)
Lemma motion_entries_keep (k : key) (entries : list json) (w : world) :
  existsb (clip_for k) entries = false ->
  motion (obj (snd (for_each motion_entry entries w))) !! k = motion (obj w) !! k /\
  last_record (obj (snd (for_each motion_entry entries w))) !! k = last_record (obj w) !! k.
Proof.
  revert w. induction entries as [|entry entries IH]; intros w Hno; simpl in *.
  - split; reflexivity.
  - apply orb_false_elim in Hno. destruct Hno as [Hentry Hrest].
    rewrite run_bind, motion_entry_run. unfold clip_for in Hentry.
    destruct (new_clip entry) as [[k' r]|[]].
    + apply bool_decide_eq_false in Hentry.
      destruct (IH {| obj := record_clip k' r (obj w); log := log w; trace := trace w |} Hrest)
        as [Hm Hl].
      rewrite Hm, Hl. simpl. rewrite !lookup_insert_ne by exact Hentry.
      split; reflexivity.
    + exact (IH {| obj := obj w;
                   log := log w ++ [(DEBUG, "No new videos since last refresh.")];
                   trace := trace w |} Hrest).
    + split; reflexivity.
    + split; reflexivity.
Qed.

(** C6. When the video-listing response is missing, is not a dict, or has no
    [videos] key, [check_new_videos] returns [False], leaves the cameras as
    they are, and the motion flag of every camera of the [cameras] mapping is
    [False]. *)
Theorem check_new_videos_no_listing (api : transport) (w : world) :
  has_key "videos" (api (listing_request w)) = false ->
  fst (check_new_videos api w) = Ok false /\
  cameras (obj (snd (check_new_videos api w))) = cameras (obj w) /\
  forall camera, In camera (cid_keys (cameras (obj (snd (check_new_videos api w))))) ->
                 motion (obj (snd (check_new_videos api w))) !! KStr camera = Some false.
Proof.
  intros Hkey. destruct (getitem_absent _ _ Hkey) as (e & He & _).
  rewrite check_new_videos_run, He. simpl.
  repeat split. intros camera Hin. apply reset_all_in. exact Hin.
Qed.

Lemma check_new_videos_no_listing_witness :
  has_key "videos" (api_down (listing_request started)) = false /\
  fst (check_new_videos api_down started) = Ok false /\
  motion (obj (snd (check_new_videos api_down started))) !! KStr "Cam1" = Some false.
Proof.
  split; [reflexivity|].
  destruct (check_new_videos_no_listing api_down started eq_refl) as (Hret & _ & Hmotion).
  split; [exact Hret|]. apply Hmotion. vm_compute. left. reflexivity.
Defined.

Lemma snd_bind_ret {A B : Type} (m : M A) (b : B) (w : world) :
  snd (bind m (fun _ => ret b) w) = snd (m w).
Proof. rewrite run_bind. destruct (m w) as [[a|e] w']; reflexivity. Qed.

(** The flag set for a name that is not a key of [cameras] survives the
    next check, although that check lists no clip at all. *)
Lemma stale_motion_flag :
  motion (obj ghost_seen) !! KStr "Ghost" = Some true /\
  clip_in (KStr "Ghost") (api_quiet (listing_request ghost_seen)) = false /\
  fst (check_new_videos api_quiet ghost_seen) = Ok true /\
  motion (obj (snd (check_new_videos api_quiet ghost_seen))) !! KStr "Ghost" = Some true.
Proof. vm_compute. repeat split. Qed.

(** C4 (amended). On every call of [check_new_videos], whatever its outcome,
    a key that is a key of the [cameras] mapping (as last set) and for which
    the listing of this call holds no qualifying new clip is [False] in
    [motion] afterwards; a key that is not a key of [cameras] and has no new
    clip keeps the value it had. *)
Theorem motion_recomputed_for_cameras (api : transport) (w : world) (k : key) :
  clip_in k (api (listing_request w)) = false ->
  let w' := snd (check_new_videos api w) in
  ((exists camera, In camera (cid_keys (cameras (obj w))) /\ k = KStr camera) ->
   motion (obj w') !! k = Some false) /\
  ((forall camera, In camera (cid_keys (cameras (obj w))) -> k <> KStr camera) ->
   motion (obj w') !! k = motion (obj w) !! k).
Proof.
  intros Hno w'.
  assert (Hkeep : motion (obj w') !! k = motion (obj (after_reset w)) !! k).
  { subst w'. rewrite check_new_videos_run. unfold clip_in in Hno.
    destruct (getitem (api (listing_request w)) "videos") as [info|e]; [|reflexivity].
    destruct (py_iter info) as [entries|e]; [|reflexivity].
    rewrite snd_bind_ret. apply (motion_entries_keep k entries _ Hno). }
  rewrite Hkeep. simpl. split.
  - intros (camera & Hin & ->). apply reset_all_in. exact Hin.
  - intros Hout. apply reset_all_other. exact Hout.
Qed.

Lemma motion_recomputed_for_cameras_witness :
  clip_in (KStr "Cam1") (api_quiet (listing_request started)) = false /\
  motion (obj started) !! KStr "Cam1" = Some false /\
  motion (obj (snd (check_new_videos api_quiet started))) !! KStr "Cam1" = Some false.
Proof.
  split; [reflexivity|]. split; [vm_compute; reflexivity|].
  destruct (motion_recomputed_for_cameras api_quiet started (KStr "Cam1") eq_refl)
    as [Hknown _].
  apply Hknown. exists "Cam1". split; [vm_compute; left|]; reflexivity.
Defined.



(** ** Frames

    A frame is a reflexive and transitive relation between the world before
    and after a method.  It is kept by a method as soon as it is kept by the
    primitive actions the method is made of, in every outcome. *)

Section Preservation.
Variable F : frame.

Lemma preserves_ret {A : Type} (a : A) : preserves F (ret a).
Proof. intros w. apply rel_refl. Qed.

Lemma preserves_lift {A : Type} (o : outcome A) : preserves F (lift o).
Proof. intros w. apply rel_refl. Qed.

Lemma preserves_self : preserves F self.
Proof. intros w. apply rel_refl. Qed.

Lemma preserves_bind {A B : Type} (m : M A) (k : A -> M B) :
  preserves F m -> (forall a, preserves F (k a)) -> preserves F (bind m k).
Proof.
  intros Hm Hk w. rewrite run_bind. specialize (Hm w).
  destruct (m w) as [[a|e] w1]; simpl in Hm.
  - apply (rel_trans F w w1); [exact Hm|apply Hk].
  - exact Hm.
Qed.

Lemma preserves_try {A : Type} (m : M A) (c : exn -> bool) (h : M A) :
  preserves F m -> preserves F h -> preserves F (try_except m c h).
Proof.
  intros Hm Hh w. rewrite run_try. specialize (Hm w).
  destruct (m w) as [[a|e] w1]; simpl in Hm; [exact Hm|].
  destruct (c e); [|exact Hm].
  apply (rel_trans F w w1); [exact Hm|apply Hh].
Qed.

Lemma preserves_for_each {A : Type} (body : A -> M unit) (l : list A) :
  (forall x, preserves F (body x)) -> preserves F (for_each body l).
Proof.
  intros Hbody. induction l as [|x l IH]; simpl.
  - apply preserves_ret.
  - apply preserves_bind; [apply Hbody|intros _; exact IH].
Qed.

Lemma preserves_attr {A : Type} (f : BlinkSyncModule -> option A) :
  preserves F (attr f).
Proof.
  unfold attr. apply preserves_bind; [apply preserves_self|].
  intros s. apply preserves_lift.
Qed.

Lemma preserves_modify (f : BlinkSyncModule -> BlinkSyncModule) :
  (forall w, F w {| obj := f (obj w); log := log w; trace := trace w |}) ->
  preserves F (modify f).
Proof. intros Hf w. apply Hf. Qed.

Lemma preserves_logger (l : level) (msg : string) :
  (forall w, F w {| obj := obj w; log := log w ++ [(l, msg)]; trace := trace w |}) ->
  preserves F (logger l msg).
Proof. intros Hf w. apply Hf. Qed.

Lemma preserves_call (api : transport) (r : request) :
  (forall w, F w {| obj := obj w; log := log w; trace := trace w ++ [r] |}) ->
  preserves F (call api r).
Proof. intros Hf w. apply Hf. Qed.
End Preservation.

(** Follow the structure of a method down to its primitive actions. *)
Ltac frame_step :=
  match goal with
  | |- preserves _ (bind _ _) => apply preserves_bind; [|intros ?]
  | |- preserves _ (try_except _ _ _) => apply preserves_try
  | |- preserves _ (ret _) => apply preserves_ret
  | |- preserves _ (lift _) => apply preserves_lift
  | |- preserves _ self => apply preserves_self
  | |- preserves _ (attr _) => apply preserves_attr
  | |- preserves _ (for_each _ _) => apply preserves_for_each; intros ?
  | |- preserves _ (modify _) => apply preserves_modify; intros ?
  | |- preserves _ (logger _ _) => apply preserves_logger; intros ?
  | |- preserves _ (call _ _) => apply preserves_call; intros ?
  | |- preserves _ (match ?x with _ => _ end) => destruct x
  | |- preserves _ (let x := _ in _) => cbv zeta
  end.





(** ** Page fetching *)


Lemma seqZ_split (start_page end_page k : Z) :
  start_page <= k <= end_page ->
  seqZ start_page (end_page + 1 - start_page) =
  seqZ start_page (k - start_page) ++ k :: seqZ (k + 1) (end_page - k).
Proof.
  intros Hk.
  replace (end_page + 1 - start_page) with ((k - start_page) + (1 + (end_page - k))) by lia.
  rewrite seqZ_app by lia. f_equal.
  replace (start_page + (k - start_page)) with k by lia.
  rewrite seqZ_cons by lia. f_equal. f_equal; lia.
Qed.



(** ** Indexing of history entries *)





Lemma getitem_ok_obj (v x : json) (k : string) :
  getitem v k = Ok x -> exists o, v = JObj o.
Proof. destruct v; simpl; try discriminate. eauto. Qed.




(** ** Sentinels of the raw fetch helpers *)

Lemma get_events_run (api : transport) (w : world) :
  let response := api (request_sync_events (network_id (obj w))) in
  get_events api w =
  (Ok (or_else (getitem response "event") (JBool false)),
   {| obj := obj w;
      log := log w ++ error_log (getitem response "event") "Could not extract events";
      trace := trace w ++ [request_sync_events (network_id (obj w))] |}).
Proof.
  intros response. unfold get_events. repeat gstep. fold response.
  destruct (getitem response "event") as [v|e] eqn:Hev; simpl.
  - rewrite app_nil_r. reflexivity.
  - rewrite (getitem_raises _ _ _ Hev). repeat gstep. reflexivity.
Qed.

Lemma get_camera_info_run (api : transport) (w : world) :
  let response := api (request_cameras (network_id (obj w))) in
  get_camera_info api w =
  (Ok (or_else (getitem response "devicestatus") (JList [])),
   {| obj := obj w;
      log := log w ++ error_log (getitem response "devicestatus") "Could not extract camera info";
      trace := trace w ++ [request_cameras (network_id (obj w))] |}).
Proof.
  intros response. unfold get_camera_info. repeat gstep. fold response.
  destruct (getitem response "devicestatus") as [v|e] eqn:Hev; simpl.
  - rewrite app_nil_r. reflexivity.
  - rewrite (getitem_raises _ _ _ Hev). repeat gstep. reflexivity.
Qed.

Lemma motion_entry_same_hub (entry : json) : preserves same_hub (motion_entry entry).
Proof. unfold motion_entry. repeat frame_step; repeat split. Qed.

Lemma check_new_videos_same_hub (api : transport) :
  preserves same_hub (check_new_videos api).
Proof.
  unfold check_new_videos, reset_motion.
  repeat first [apply motion_entry_same_hub | frame_step]; repeat split.
Qed.

Lemma check_new_videos_ok (api : transport) (w : world) :
  listing_ok (api (listing_request w)) = true ->
  exists b, fst (check_new_videos api w) = Ok b.
Proof.
  unfold listing_ok. intros Hok. rewrite check_new_videos_run.
  destruct (getitem (api (listing_request w)) "videos") as [info|e].
  - destruct info as [| | | |entries|]; try discriminate. simpl py_iter. cbv iota.
    rewrite run_bind.
    pose proof (motion_entries_ok entries (after_reset w) Hok) as Hrun.
    destruct (for_each motion_entry entries (after_reset w)) as [[[]|e] w1];
      simpl in Hrun; [|discriminate].
    exists true. reflexivity.
  - exists false. reflexivity.
Qed.

(** ** Recurring refresh *)

(** Up to its loop over the camera-info entries, [refresh] leaves the hub
    identity and the cameras alone and, with a tolerated listing, does not
    raise. *)
Lemma refresh_run (api : transport) (force_cache : bool) (w : world) :
  listing_ok (api (listing_request w)) = true ->
  exists w1,
    same_hub w w1 /\
    refresh api force_cache w =
    match py_iter (camera_info_of api (network_id (obj w))) with
    | Ok configs => for_each (refresh_camera force_cache) configs w1
    | Raise e => (Raise e, w1)
    end.
Proof.
  intros Hok. unfold refresh. rewrite run_bind, get_events_run. cbv zeta iota beta.
  repeat gstep. rewrite get_camera_info_run. cbv zeta iota beta.
  simpl obj. simpl network_id. fold (camera_info_of api (network_id (obj w))).
  rewrite run_bind.
  match goal with |- context [check_new_videos api ?w0] => set (w' := w0) end.
  destruct (check_new_videos_ok api w' Hok) as [b Hb].
  pose proof (check_new_videos_same_hub api w') as Hhub.
  destruct (check_new_videos api w') as [[b'|e] w1]; simpl in Hb; [|discriminate].
  exists w1. split; [exact Hhub|].
  gstep. destruct (py_iter (camera_info_of api (network_id (obj w)))); reflexivity.
Qed.

Lemma store_alter_keys {V : Type} (f : V -> V) (k : string) (d : list (string * V)) :
  map fst (store_alter f k d) = map fst d.
Proof.
  induction d as [|[k' v] d IH]; simpl; [reflexivity|].
  destruct (String.eqb k k'); simpl; [reflexivity|]. rewrite IH. reflexivity.
Qed.

Lemma assoc_keys {V : Type} (k : string) (d d' : list (string * V)) :
  map fst d = map fst d' ->
  match assoc k d with Some _ => true | None => false end =
  match assoc k d' with Some _ => true | None => false end.
Proof.
  revert d'. induction d as [|[k1 v1] d IH]; intros [|[k2 v2] d']; simpl;
    try discriminate; [reflexivity|].
  intros [= <- Hrest]. destruct (String.eqb k k1); [reflexivity|]. apply IH. exact Hrest.
Qed.

Lemma cid_mutate_keys (f : BlinkCamera -> BlinkCamera) (name : json)
    (d : CaseInsensitiveDict) :
  map fst (cid_mutate f name d) = map fst d.
Proof.
  unfold cid_mutate. destruct name; try reflexivity. apply store_alter_keys.
Qed.


Lemma knows_keys (d d' : CaseInsensitiveDict) (s : string) :
  map fst d = map fst d' -> knows d s = knows d' s.
Proof. intros Hkeys. unfold knows. apply assoc_keys. exact Hkeys. Qed.

Lemma known_camera_keys (d d' : CaseInsensitiveDict) (camera_config : json) :
  map fst d = map fst d' -> known_camera d camera_config = known_camera d' camera_config.
Proof.
  intros Hkeys. unfold known_camera.
  destruct (getitem camera_config "name") as [[| | |s| |]|]; try reflexivity.
  apply knows_keys. exact Hkeys.
Qed.


Lemma set_cameras_same (s : BlinkSyncModule) : set_cameras (cameras s) s = s.
Proof. destruct s; reflexivity. Qed.

Lemma refresh_camera_known (force_cache : bool) (camera_config : json) (w : world) :
  known_camera (cameras (obj w)) camera_config = true ->
  refresh_camera force_cache camera_config w =
  (Ok tt,
   {| obj := set_cameras (refresh_all force_cache [camera_config] (cameras (obj w))) (obj w);
      log := log w; trace := trace w |}).
Proof.
  unfold known_camera, knows, refresh_camera, update_camera, refresh_all. intros Hknown.
  cbn [fold_left]. gstep. destruct (getitem camera_config "name") as [[| | |s| |]|]; try discriminate.
  repeat gstep. simpl cid_get.
  destruct (assoc (lower s) (cameras (obj w))) as [[cased c]|]; [|discriminate].
  reflexivity.
Qed.


Lemma forallb_agree {A : Type} (f g : A -> bool) (l : list A) :
  (forall x, f x = g x) -> forallb f l = forallb g l.
Proof.
  intros Hfg. induction l as [|x l IH]; simpl; [reflexivity|].
  rewrite Hfg, IH. reflexivity.
Qed.

Lemma refresh_loop_ok (force_cache : bool) (configs : list json) (w : world) :
  forallb (known_camera (cameras (obj w))) configs = true ->
  for_each (refresh_camera force_cache) configs w =
  (Ok tt,
   {| obj := set_cameras (refresh_all force_cache configs (cameras (obj w))) (obj w);
      log := log w; trace := trace w |}).
Proof.
  revert w. induction configs as [|c configs IH]; intros w Hknown; simpl in *.
  - rewrite set_cameras_same. destruct w; reflexivity.
  - apply andb_prop in Hknown. destruct Hknown as [Hc Hrest].
    rewrite run_bind, (refresh_camera_known _ _ _ Hc). rewrite IH.
    + reflexivity.
    + simpl. rewrite <- Hrest. apply forallb_agree.
      intros c'. apply known_camera_keys. apply cid_mutate_keys.
Qed.


(** [refresh] creates no camera and removes none, whatever the responses
    and the outcome. *)
Lemma refresh_keeps_camera_keys (api : transport) (force_cache : bool) :
  preserves same_camera_keys (refresh api force_cache).
Proof.
  unfold refresh, get_events, get_camera_info, check_new_videos, reset_motion,
    motion_entry, refresh_camera, update_camera.
  repeat frame_step; try reflexivity.
  simpl. apply cid_mutate_keys.
Qed.




(** ** Operations that return normally *)














(** On a freshly constructed instance [get_videos] raises [AttributeError]:
    [__init__] creates neither [videos] nor [all_clips]. *)
Lemma get_videos_fresh_raises :
  video_entry_ok clip1 = true /\
  fst (get_videos api_home 0 1 fresh) = Raise AttributeError.
Proof. vm_compute. split; reflexivity. Qed.



(** ** Effects of new-video detection *)

(** Close a frame condition on two objects that differ by setters. *)
Ltac frame_obj :=
  intros; simpl;
  try match goal with |- context [obj ?w] => destruct (obj w) end;
  repeat split; reflexivity.

Lemma motion_entry_mutable (entry : json) : preserves mutable_state (motion_entry entry).
Proof. unfold motion_entry. repeat frame_step; frame_obj. Qed.

Lemma check_new_videos_mutable (api : transport) :
  preserves mutable_state (check_new_videos api).
Proof.
  unfold check_new_videos, reset_motion.
  repeat first [apply motion_entry_mutable | frame_step]; frame_obj.
Qed.

Lemma motion_entry_no_call (entry : json) : preserves same_trace (motion_entry entry).
Proof. unfold motion_entry. repeat frame_step; reflexivity. Qed.

Lemma check_new_videos_trace (api : transport) (w : world) :
  trace (snd (check_new_videos api w)) = trace w ++ [listing_request w].
Proof.
  rewrite check_new_videos_run.
  destruct (getitem (api (listing_request w)) "videos") as [info|e]; [|reflexivity].
  destruct (py_iter info) as [entries|e]; [|reflexivity].
  rewrite snd_bind_ret.
  apply (preserves_for_each same_trace motion_entry entries motion_entry_no_call
           (after_reset w)).
Qed.

Lemma check_new_videos_obj (api : transport) (w : world) :
  obj (snd (check_new_videos api w)) =
  set_last_record (last_record (obj (snd (check_new_videos api w))))
    (set_motion (motion (obj (snd (check_new_videos api w)))) (obj w)).
Proof.
  pose proof (check_new_videos_mutable api w) as Hmut.
  destruct (check_new_videos_same_hub api w) as (Hcams & _ & _).
  simpl in Hmut. rewrite Hcams, set_cameras_same in Hmut. exact Hmut.
Qed.

(** X9. [check_new_videos] issues one request, the listing since the last
    refresh, and changes nothing but [motion] and [last_record], whatever the
    response and whether it returns or raises; the [last_record] of a camera
    with no qualifying new clip in the listing is kept. *)
Theorem check_new_videos_effects (api : transport) (w : world) :
  let w' := snd (check_new_videos api w) in
  obj w' = set_last_record (last_record (obj w')) (set_motion (motion (obj w')) (obj w)) /\
  trace w' = trace w ++ [request_videos (last_refresh (blink (obj w))) 0] /\
  forall k, clip_in k (api (listing_request w)) = false ->
            last_record (obj w') !! k = last_record (obj w) !! k.
Proof.
  intros w'. split; [|split].
  - apply check_new_videos_obj.
  - apply check_new_videos_trace.
  - intros k Hno. subst w'. rewrite check_new_videos_run. unfold clip_in in Hno.
    destruct (getitem (api (listing_request w)) "videos") as [info|e]; [|reflexivity].
    destruct (py_iter info) as [entries|e]; [|reflexivity].
    rewrite snd_bind_ret.
    destruct (motion_entries_keep k entries (after_reset w) Hno) as [_ Hl]. exact Hl.
Qed.

Lemma check_new_videos_effects_witness :
  last_record (obj (snd (check_new_videos api_quiet ghost_seen))) !! KStr "Ghost" =
  Some (JObj [("clip", JStr "/g1"); ("time", JStr "t0")]).
Proof.
  destruct (check_new_videos_effects api_quiet ghost_seen) as (_ & _ & Hkeep).
  rewrite (Hkeep (KStr "Ghost")) by reflexivity. vm_compute. reflexivity.
Defined.

Lemma non_dict_raises (entry : json) :
  is_dict entry = false -> new_clip entry = Raise TypeError.
Proof. destruct entry; try reflexivity. discriminate. Qed.

(** X10. A listing entry that is not a dict makes [check_new_videos] raise
    [TypeError] (only [KeyError] is handled); the entries after it are never
    read: a camera named only by later entries keeps its reset flag and its
    [last_record]. *)
Theorem check_new_videos_non_dict (api : transport) (w : world) (pre post : list json)
    (bad : json) :
  getitem (api (listing_request w)) "videos" = Ok (JList (pre ++ bad :: post)) ->
  forallb listing_entry_ok pre = true ->
  is_dict bad = false ->
  let w' := snd (check_new_videos api w) in
  fst (check_new_videos api w) = Raise TypeError /\
  forall k, existsb (clip_for k) pre = false ->
            motion (obj w') !! k =
              reset_all (cid_keys (cameras (obj w))) (motion (obj w)) !! k /\
            last_record (obj w') !! k = last_record (obj w) !! k.
Proof.
  intros Hinfo Hpre Hbad w'. subst w'.
  rewrite check_new_videos_run, Hinfo. simpl py_iter. cbv iota.
  rewrite run_bind, for_each_app, run_bind.
  pose proof (motion_entries_ok pre (after_reset w) Hpre) as Hrun.
  pose proof (fun k => motion_entries_keep k pre (after_reset w)) as Hkeep.
  destruct (for_each motion_entry pre (after_reset w)) as [[[]|e] w1];
    simpl in Hrun; [|discriminate]. clear Hrun.
  simpl for_each. rewrite run_bind, motion_entry_run, (non_dict_raises bad Hbad).
  simpl. split; [reflexivity|]. intros k Hk. apply (Hkeep k Hk).
Qed.

Lemma check_new_videos_non_dict_witness :
  fst (check_new_videos api_broken_listing fresh) = Raise TypeError /\
  motion (obj (snd (check_new_videos api_broken_listing fresh))) !! KStr "Cam2" = None /\
  last_record (obj (snd (check_new_videos api_broken_listing fresh))) !! KStr "Cam2" = None.
Proof.
  destruct (check_new_videos_non_dict api_broken_listing fresh
              [JObj [("camera_name", JStr "Cam1"); ("address", JStr "/a1");
                     ("created_at", JStr "t1")]]
              [JObj [("camera_name", JStr "Cam2"); ("address", JStr "/b1");
                     ("created_at", JStr "t2")]]
              (JStr "oops")) as (Hraise & Hkeep); try reflexivity.
  split; [exact Hraise|]. apply (Hkeep (KStr "Cam2")). reflexivity.
Defined.

(** ** Effects of the recurring refresh *)

Lemma refresh_camera_no_call (force_cache : bool) (camera_config : json) :
  preserves same_trace (refresh_camera force_cache camera_config).
Proof. unfold refresh_camera, update_camera. repeat frame_step; reflexivity. Qed.

Lemma refresh_camera_mutable (force_cache : bool) (camera_config : json) :
  preserves mutable_state (refresh_camera force_cache camera_config).
Proof. unfold refresh_camera, update_camera. repeat frame_step; frame_obj. Qed.

(** X5. [refresh] always issues the same five requests in the same order, with
    the current network id, whatever the responses and whether it returns or
    raises. *)
Theorem refresh_requests (api : transport) (force_cache : bool) (w : world) :
  trace (snd (refresh api force_cache w)) =
  trace w ++ [request_sync_events (network_id (obj w));
              request_homescreen;
              request_network_status (network_id (obj w));
              request_cameras (network_id (obj w));
              request_videos (last_refresh (blink (obj w))) 0].
Proof.
  unfold refresh. rewrite run_bind, get_events_run. cbv zeta iota beta.
  repeat gstep. rewrite get_camera_info_run. cbv zeta iota beta.
  simpl obj. simpl network_id. rewrite run_bind.
  match goal with |- context [check_new_videos api ?w0] => set (w' := w0) end.
  pose proof (check_new_videos_trace api w') as Ht.
  destruct (check_new_videos api w') as [[b|e] w1]; simpl in Ht.
  - gstep.
    destruct (py_iter (or_else (getitem (api (request_cameras (network_id (obj w))))
                                  "devicestatus") (JList []))) as [configs|e].
    + pose proof (preserves_for_each same_trace (refresh_camera force_cache) configs
                    (refresh_camera_no_call force_cache) w1) as Hloop.
      simpl in Hloop. rewrite Hloop, Ht. subst w'. simpl.
      rewrite <- !app_assoc. reflexivity.
    + simpl. rewrite Ht. subst w'. simpl. rewrite <- !app_assoc. reflexivity.
  - simpl. rewrite Ht. subst w'. simpl. rewrite <- !app_assoc. reflexivity.
Qed.

(** After its three first fetches [refresh] only touches [cameras],
    [motion] and [last_record]. *)
Lemma refresh_prefix (api : transport) (force_cache : bool) (w : world) :
  exists w0,
    obj w0 = set_network_info (api (request_network_status (network_id (obj w))))
               (set_homescreen (api request_homescreen)
                  (set_events (events_of api (network_id (obj w))) (obj w))) /\
    mutable_state w0 (snd (refresh api force_cache w)).
Proof.
  unfold refresh. rewrite run_bind, get_events_run. cbv zeta iota beta.
  repeat gstep. rewrite get_camera_info_run. cbv zeta iota beta.
  simpl obj. simpl network_id. rewrite run_bind.
  match goal with |- context [check_new_videos api ?w0] => set (w' := w0) end.
  exists w'. split; [reflexivity|].
  pose proof (check_new_videos_mutable api w') as Hcheck.
  destruct (check_new_videos api w') as [[b|e] w1]; simpl snd in Hcheck; [|exact Hcheck].
  gstep.
  destruct (py_iter (or_else (getitem (api (request_cameras (network_id (obj w))))
                                "devicestatus") (JList []))) as [configs|e];
    [|exact Hcheck].
  apply (rel_trans mutable_state w' w1); [exact Hcheck|].
  apply (preserves_for_each mutable_state (refresh_camera force_cache) configs
           (refresh_camera_mutable force_cache) w1).
Qed.

(** X6. Whatever the responses and whether it returns or raises, [refresh]
    replaces [events] (by the [event] list, or [False] when the response has
    none), [homescreen] and [network_info] (by the raw responses), and leaves
    [network_id], [summary], [sync_id], [serial], [status] and the history
    attributes as they were. *)
Theorem refresh_effects (api : transport) (force_cache : bool) (w : world) :
  let s := obj w in
  let s' := obj (snd (refresh api force_cache w)) in
  events s' = events_of api (network_id s) /\
  homescreen s' = api request_homescreen /\
  network_info s' = api (request_network_status (network_id s)) /\
  network_id s' = network_id s /\ summary s' = summary s /\
  sync_id s' = sync_id s /\ serial s' = serial s /\ status s' = status s /\
  all_clips s' = all_clips s /\ videos s' = videos s /\
  record_dates s' = record_dates s.
Proof.
  intros s s'. destruct (refresh_prefix api force_cache w) as (w0 & Hobj & Hmut).
  simpl in Hmut. fold s' in Hmut. rewrite Hmut, Hobj. simpl. repeat split.
Qed.

(** X8. The getter of [arm] fails with [TypeError] on a freshly constructed
    instance; after [refresh], even one that raised, it reads
    [network.armed] of the latest network-status response. *)
Theorem arm_after_refresh (api : transport) (force_cache : bool) (w : world) :
  (forall blink network_name network, arm (init blink network_name network) = Raise TypeError) /\
  arm (obj (snd (refresh api force_cache w))) =
  match getitem (api (request_network_status (network_id (obj w)))) "network" with
  | Ok network => getitem network "armed"
  | Raise e => Raise e
  end.
Proof.
  split; [reflexivity|].
  destruct (refresh_prefix api force_cache w) as (w0 & Hobj & Hmut).
  simpl in Hmut. unfold arm. rewrite Hmut, Hobj. reflexivity.
Qed.

Lemma assoc_store_alter {V : Type} (f : V -> V) (k k' : string) (d : list (string * V)) :
  assoc k (store_alter f k' d) =
  if String.eqb k' k then option_map f (assoc k d) else assoc k d.
Proof.
  induction d as [|[k0 v] d IH]; simpl.
  - destruct (String.eqb k' k); reflexivity.
  - destruct (String.eqb_spec k' k0) as [->|Hne0]; simpl.
    + destruct (String.eqb_spec k k0) as [->|Hne].
      * rewrite String.eqb_refl. reflexivity.
      * destruct (String.eqb_spec k0 k) as [->|_]; [contradiction|reflexivity].
    + destruct (String.eqb_spec k k0) as [->|Hne].
      * destruct (String.eqb_spec k' k0) as [->|_]; [contradiction|reflexivity].
      * exact IH.
Qed.

Lemma forallb_weaken {A : Type} (f g : A -> bool) (l : list A) :
  (forall x, f x = true -> g x = true) -> forallb f l = true -> forallb g l = true.
Proof.
  intros Hfg. induction l as [|x l IH]; simpl; [reflexivity|].
  intros Hl. apply andb_prop in Hl. destruct Hl as [Hx Hl].
  rewrite (Hfg x Hx), (IH Hl). reflexivity.
Qed.

Lemma known_is_named (d : CaseInsensitiveDict) (camera_config : json) :
  known_camera d camera_config = true -> named_camera camera_config = true.
Proof.
  unfold known_camera, named_camera.
  destruct (getitem camera_config "name") as [[| | |s| |]|]; try discriminate.
  reflexivity.
Qed.

Lemma refresh_all_assoc (force_cache : bool) (k : string) (configs : list json)
    (d : CaseInsensitiveDict) :
  forallb named_camera configs = true ->
  assoc k (refresh_all force_cache configs d) =
  option_map
    (fun e => (fst e, {| updates := updates (snd e) ++ delivered force_cache k configs |}))
    (assoc k d).
Proof.
  revert d. induction configs as [|c configs IH]; intros d Hnamed.
  - simpl. destruct (assoc k d) as [[cased [u]]|]; simpl; [|reflexivity].
    unfold delivered. simpl. rewrite app_nil_r. reflexivity.
  - simpl in Hnamed. apply andb_prop in Hnamed. destruct Hnamed as [Hc Hrest].
    change (refresh_all force_cache (c :: configs) d) with
      (refresh_all force_cache configs
         (cid_mutate (update c force_cache) (or_else (getitem c "name") JNull) d)).
    rewrite (IH _ Hrest). unfold delivered, named_camera in *. cbn [List.filter].
    unfold camera_name_of at 2.
    destruct (getitem c "name") as [[| | |s| |]|]; try discriminate. simpl.
    rewrite assoc_store_alter.
    destruct (String.eqb (lower s) k); [|reflexivity].
    destruct (assoc k d) as [[cased [u]]|]; simpl; [|reflexivity].
    rewrite <- app_assoc. reflexivity.
Qed.

(** X7. When every camera-info entry names a known camera, [refresh] returns
    normally and each camera has received, after what it had and in the order
    of the camera info, exactly the entries that name it in any casing, each
    with the [force_cache] flag of the call. *)
Theorem refresh_delivers (api : transport) (force_cache : bool) (w : world)
    (configs : list json) (s cased : string) (c0 : BlinkCamera) :
  listing_ok (api (listing_request w)) = true ->
  camera_info_of api (network_id (obj w)) = JList configs ->
  forallb (known_camera (cameras (obj w))) configs = true ->
  assoc (lower s) (cameras (obj w)) = Some (cased, c0) ->
  fst (refresh api force_cache w) = Ok tt /\
  cid_get (JStr s) (cameras (obj (snd (refresh api force_cache w)))) =
  Ok {| updates := updates c0 ++ delivered force_cache (lower s) configs |}.
Proof.
  intros Hok Hinfo Hknown Hcam.
  destruct (refresh_run api force_cache w Hok) as (w1 & (Hcams & _ & _) & Hrun).
  rewrite Hrun, Hinfo. simpl py_iter. cbv iota.
  rewrite refresh_loop_ok by (rewrite Hcams; exact Hknown).
  simpl. split; [reflexivity|]. rewrite Hcams, refresh_all_assoc, Hcam.
  - reflexivity.
  - apply (forallb_weaken _ _ _ (known_is_named (cameras (obj w))) Hknown).
Qed.

Lemma refresh_delivers_witness :
  fst (refresh api_armed false started) = Ok tt /\
  cid_get (JStr "Cam1") (cameras (obj (snd (refresh api_armed false started)))) =
  Ok {| updates := [(JObj [("name", JStr "Cam1")], true);
                    (JObj [("name", JStr "CAM1"); ("battery", JNum 3)], false);
                    (JObj [("name", JStr "cam1"); ("battery", JNum 2)], false)] |}.
Proof.
  apply (refresh_delivers api_armed false started
           [JObj [("name", JStr "CAM1"); ("battery", JNum 3)];
            JObj [("name", JStr "cam1"); ("battery", JNum 2)]]
           "Cam1" "Cam1" {| updates := [(JObj [("name", JStr "Cam1")], true)] |});
    vm_compute; reflexivity.
Defined.

(** ** Effects of the bootstrap *)

Lemma identity_of_frame (v : json) (s : BlinkSyncModule) :
  blink (identity_of v s) = blink s /\ network_id (identity_of v s) = network_id s /\
  summary (identity_of v s) = summary s /\ cameras (identity_of v s) = cameras s /\
  motion (identity_of v s) = motion s /\ last_record (identity_of v s) = last_record s.
Proof.
  unfold identity_of.
  destruct (getitem v "id"), (getitem v "serial"), (getitem v "status"); repeat split.
Qed.

(** With a module payload that has a [network_id], [start] assigns
    [summary] and [network_id], runs its second [try] and goes on. *)
Lemma start_head (api : transport) (w : world) (v n : json) :
  getitem (api (request_syncmodule (network_id (obj w)))) "syncmodule" = Ok v ->
  getitem v "network_id" = Ok n ->
  exists l,
    start api w =
    start_tail api
      {| obj := identity_of v (set_network_id n (set_summary v (obj w)));
         log := l;
         trace := trace w ++ [request_syncmodule (network_id (obj w))] |}.
Proof.
  intros Hresp Hnet. unfold start. do 2 gstep.
  rewrite run_bind, run_try. gstep. rewrite Hresp. do 3 gstep. simpl summary.
  rewrite Hnet. destruct (getitem_ok_obj _ _ _ Hnet) as [o ->]. gstep.
  match goal with
  | |- exists l, bind (try_except ?m ?c ?h) ?k ?w2 = _ =>
      assert (Hblock : exists l, try_except m c h w2 =
                                 (Ok tt, {| obj := identity_of (JObj o) (obj w2);
                                            log := l; trace := trace w2 |}))
  end.
  { rewrite run_try. repeat gstep. unfold identity_of. simpl summary. simpl getitem.
    destruct (assoc "id" o); [|simpl; eexists; reflexivity].
    repeat gstep. destruct (assoc "serial" o); [|simpl; eexists; reflexivity].
    repeat gstep. destruct (assoc "status" o); simpl; eexists; reflexivity. }
  destruct Hblock as (l & Hblock). exists l.
  rewrite run_bind, Hblock. reflexivity.
Qed.

Lemma start_camera_identity (camera_config : json) :
  preserves same_identity (start_camera camera_config).
Proof. unfold start_camera, update_camera. repeat frame_step; frame_obj. Qed.

Lemma start_tail_identity (api : transport) : preserves same_identity (start_tail api).
Proof.
  unfold start_tail, get_events, get_camera_info, check_new_videos, reset_motion,
    motion_entry.
  repeat first [apply start_camera_identity | frame_step]; frame_obj.
Qed.

(** X3. When the module payload has a [network_id], then whatever happens later
    in [start], [network_id] is the one of the payload, [summary] is the
    payload, and [sync_id], [serial] and [status] are assigned in this order
    up to the first key that the payload lacks: without [id] none of the
    three is assigned, without [serial] only [sync_id] is. *)
Theorem start_identity (api : transport) (w : world) (v n : json) :
  getitem (api (request_syncmodule (network_id (obj w)))) "syncmodule" = Ok v ->
  getitem v "network_id" = Ok n ->
  let s' := obj (snd (start api w)) in
  network_id s' = n /\ summary s' = v /\
  sync_id s' = sync_id (identity_of v (obj w)) /\
  serial s' = serial (identity_of v (obj w)) /\
  status s' = status (identity_of v (obj w)).
Proof.
  intros Hresp Hnet s'. subst s'.
  destruct (start_head api w v n Hresp Hnet) as (l & ->).
  match goal with |- context [start_tail api ?w3] =>
    destruct (start_tail_identity api w3) as (Hn & Hs & Hi & Hse & Hst & _)
  end.
  rewrite Hn, Hs, Hi, Hse, Hst. simpl obj.
  destruct (identity_of_frame v (set_network_id n (set_summary v (obj w))))
    as (_ & -> & -> & _).
  unfold identity_of.
  destruct (getitem v "id"), (getitem v "serial"), (getitem v "status"); repeat split.
Qed.

Lemma start_identity_witness :
  network_id (obj (snd (start api_no_id fresh))) = JNum 9 /\
  sync_id (obj (snd (start api_no_id fresh))) = JNull /\
  serial (obj (snd (start api_no_id fresh))) = JNull /\
  status (obj (snd (start api_no_id fresh))) = JNull.
Proof.
  destruct (start_identity api_no_id fresh
              (JObj [("network_id", JNum 9); ("serial", JStr "G8T1");
                     ("status", JStr "online")]) (JNum 9) eq_refl eq_refl)
    as (Hn & _ & Hi & Hse & Hst).
  repeat split; assumption.
Defined.

Lemma start_camera_no_call (camera_config : json) :
  preserves same_trace (start_camera camera_config).
Proof. unfold start_camera, update_camera. repeat frame_step; reflexivity. Qed.

(** Up to its loop over the camera info, with a tolerated listing. *)
Lemma start_tail_run (api : transport) (w : world) :
  listing_ok (api (listing_request w)) = true ->
  exists w1,
    start_tail api w =
    match py_iter (camera_info_of api (network_id (obj w))) with
    | Ok configs => bind (for_each start_camera configs) (fun _ => ret true) w1
    | Raise e => (Raise e, w1)
    end /\
    obj w1 = set_last_record (last_record (obj w1))
               (set_motion (motion (obj w1))
                  (set_network_info (api (request_network_status (network_id (obj w))))
                     (set_homescreen (api request_homescreen)
                        (set_events (events_of api (network_id (obj w))) (obj w))))) /\
    trace w1 = trace w ++ [request_sync_events (network_id (obj w));
                           request_homescreen;
                           request_network_status (network_id (obj w));
                           request_videos (last_refresh (blink (obj w))) 0;
                           request_cameras (network_id (obj w))].
Proof.
  intros Hok. unfold start_tail. rewrite run_bind, get_events_run. cbv zeta iota beta.
  repeat gstep.
  match goal with |- context [check_new_videos api ?w0] => set (w' := w0) end.
  destruct (check_new_videos_ok api w' Hok) as [b Hb].
  pose proof (check_new_videos_obj api w') as Hobj.
  pose proof (check_new_videos_trace api w') as Htrace.
  destruct (check_new_videos api w') as [[b'|e] w1]; simpl in Hb, Hobj, Htrace;
    [|discriminate].
  rewrite run_bind, get_camera_info_run. cbv zeta iota beta.
  assert (Hnet : network_id (obj w1) = network_id (obj w)) by (rewrite Hobj; reflexivity).
  rewrite Hnet. fold (camera_info_of api (network_id (obj w))).
  eexists. split; [|split].
  - gstep. destruct (py_iter (camera_info_of api (network_id (obj w)))); reflexivity.
  - exact Hobj.
  - simpl. rewrite Htrace. subst w'. simpl. rewrite <- !app_assoc. reflexivity.
Qed.

(** X2. On a bootstrap that gets a module payload with a [network_id] and a
    tolerated listing, [start] issues six requests in this order, and all
    but the first carry the network id of the payload, not the one given to
    the constructor; the camera loop issues none, even if it raises. *)
Theorem start_requests (api : transport) (w : world) (v n : json) :
  getitem (api (request_syncmodule (network_id (obj w)))) "syncmodule" = Ok v ->
  getitem v "network_id" = Ok n ->
  listing_ok (api (listing_request w)) = true ->
  trace (snd (start api w)) =
  trace w ++ [request_syncmodule (network_id (obj w));
              request_sync_events n;
              request_homescreen;
              request_network_status n;
              request_videos (last_refresh (blink (obj w))) 0;
              request_cameras n].
Proof.
  intros Hresp Hnet Hok.
  destruct (start_head api w v n Hresp Hnet) as (l & ->).
  set (s3 := identity_of v (set_network_id n (set_summary v (obj w)))).
  destruct (identity_of_frame v (set_network_id n (set_summary v (obj w))))
    as (Hblink & Hnid & _). fold s3 in Hblink, Hnid. simpl in Hblink, Hnid.
  match goal with |- context [start_tail api ?w3] =>
    destruct (start_tail_run api w3) as (w1 & Hrun & _ & Htrace)
  end.
  { unfold listing_request. simpl obj. rewrite Hblink. exact Hok. }
  simpl obj in Hrun, Htrace. simpl trace in Htrace. rewrite Hnid, Hblink in Htrace.
  rewrite Hrun. rewrite Hnid.
  destruct (py_iter (camera_info_of api n)) as [configs|e].
  - rewrite snd_bind_ret.
    pose proof (preserves_for_each same_trace start_camera configs start_camera_no_call w1)
      as Hloop.
    simpl in Hloop. rewrite Hloop, Htrace, <- app_assoc. reflexivity.
  - simpl. rewrite Htrace, <- app_assoc. reflexivity.
Qed.

Lemma start_requests_witness :
  trace (snd (start api_home fresh)) =
  [request_syncmodule (JNum 7); request_sync_events (JNum 9); request_homescreen;
   request_network_status (JNum 9); request_videos (JNum 0) 0; request_cameras (JNum 9)].
Proof.
  apply (start_requests api_home fresh
           (JObj [("network_id", JNum 9); ("id", JNum 1);
                  ("serial", JStr "G8T1"); ("status", JStr "online")]) (JNum 9));
    reflexivity.
Defined.













(** ** Edge behaviour of the historical video listing *)

Lemma append_video_no_videos (camera_name clip_addr thumb_addr : json) :
  preserves no_videos (append_video camera_name clip_addr thumb_addr).
Proof.
  intros w. simpl. intros Hnone. unfold append_video, attr.
  repeat gstep. rewrite Hnone. simpl. exact Hnone.
Qed.

Lemma video_entry_no_videos (entry : json) (all_dates : gmap key (list json)) :
  preserves no_videos (video_entry entry all_dates).
Proof.
  unfold video_entry, read_entry, store_clip.
  repeat first [apply append_video_no_videos | frame_step]; simpl; auto.
Qed.

Lemma page_entries_no_videos (entries : list json) (all_dates : gmap key (list json)) :
  preserves no_videos (page_entries entries all_dates).
Proof.
  revert all_dates. induction entries as [|entry entries IH]; intros all_dates; simpl.
  - apply preserves_ret.
  - apply preserves_bind; [apply video_entry_no_videos|].
    intros [d|]; [apply IH|apply preserves_ret].
Qed.

Lemma all_pages_no_videos (pages : list json) (all_dates : gmap key (list json)) :
  preserves no_videos (all_pages pages all_dates).
Proof.
  revert all_dates. induction pages as [|page pages IH]; intros all_dates; simpl.
  - apply preserves_ret.
  - repeat frame_step; [apply page_entries_no_videos|apply IH].
Qed.

Lemma fetch_pages_no_videos (api : transport) (pages : list Z) (fetched : list json) :
  preserves no_videos (fetch_pages api pages fetched).
Proof.
  revert fetched. induction pages as [|p pages IH]; intros fetched; simpl.
  - apply preserves_ret.
  - repeat first [apply IH | frame_step]; simpl; auto.
Qed.

(** X12. On an instance that has no [videos] attribute, as every instance is
    after [__init__], [get_videos] never returns normally, whatever the
    transport answers and whatever the page range: it always raises. *)
Theorem get_videos_needs_videos (api : transport) (start_page end_page : Z) (w : world) :
  videos (obj w) = None ->
  exists e, fst (get_videos api start_page end_page w) = Raise e.
Proof.
  intros Hnone. unfold get_videos. rewrite run_bind.
  pose proof (fetch_pages_no_videos api (seqZ start_page (end_page + 1 - start_page)) [] w
                Hnone) as Hfetch.
  destruct (fetch_pages api (seqZ start_page (end_page + 1 - start_page)) [] w)
    as [[fetched|e] w1]; simpl in Hfetch; [|eexists; reflexivity].
  unfold index_pages. do 2 gstep.
  match goal with |- context [all_pages fetched ∅ ?w0] =>
    pose proof (all_pages_no_videos fetched ∅ w0 Hfetch) as Hindex;
    destruct (all_pages fetched ∅ w0) as [[all_dates|e] w2]
  end; simpl in Hindex; [|eexists; reflexivity].
  unfold attr. repeat gstep. simpl. rewrite Hindex. eexists. reflexivity.
Qed.

Lemma get_videos_needs_videos_witness :
  exists e, fst (get_videos api_down 0 1 fresh) = Raise e.
Proof. apply (get_videos_needs_videos api_down 0 1 fresh). reflexivity. Defined.


















(** The first loop fails on an unreadable page. *)
Lemma fetch_pages_fails (api : transport) (before after : list Z) (k : Z)
    (fetched : list json) (w : world) :
  (forall p, In p before ->
             truthy (api (page_request p)) = true /\
             contains "message" (api (page_request p)) = Ok false) ->
  unreadable_page (api (page_request k)) = true ->
  fetch_pages api (before ++ k :: after) fetched w =
  (Raise TypeError,
   {| obj := obj w; log := log w; trace := trace w ++ map page_request (before ++ [k]) |}).
Proof.
  revert fetched w. induction before as [|p before IH]; intros fetched w Hgo Hbad; simpl.
  - gstep. fold (page_request k). unfold unreadable_page in Hbad.
    destruct (truthy (api (page_request k))); [|discriminate].
    change (negb true) with false. cbv iota. gstep.
    destruct (api (page_request k)) as [|b|z|s|l|o]; simpl in Hbad |- *;
      try discriminate; try reflexivity.
    + destruct (is_substring "message" s); [|discriminate]. repeat gstep. reflexivity.
    + destruct (existsb (is_str "message") l); [|discriminate]. repeat gstep. reflexivity.
  - gstep. fold (page_request p).
    destruct (Hgo p) as [Htruthy Hmsg]; [left; reflexivity|].
    rewrite Htruthy. simpl. gstep. rewrite Hmsg.
    rewrite IH; [|intros q Hq; apply Hgo; right; exact Hq|exact Hbad]. simpl.
    rewrite <- !app_assoc. reflexivity.
Qed.

(** X17. When a page of the range is truthy but is a number, [True], or a list
    or string that contains ["message"], [get_videos] raises [TypeError] at
    that page: no later page is requested, and the pages already fetched are
    discarded, nothing of them is indexed and the object is unchanged. *)
Theorem get_videos_unreadable_page (api : transport) (start_page end_page k : Z)
    (w : world) :
  start_page <= k <= end_page ->
  (forall p, start_page <= p < k ->
             truthy (api (page_request p)) = true /\
             contains "message" (api (page_request p)) = Ok false) ->
  unreadable_page (api (page_request k)) = true ->
  let w' := snd (get_videos api start_page end_page w) in
  fst (get_videos api start_page end_page w) = Raise TypeError /\
  obj w' = obj w /\
  trace w' = trace w ++ map page_request (seqZ start_page (k - start_page + 1)).
Proof.
  intros Hk Hgo Hbad w'. subst w'. unfold get_videos.
  rewrite run_bind, (seqZ_split start_page end_page k Hk).
  rewrite fetch_pages_fails; [|intros p Hp; apply Hgo|exact Hbad].
  - simpl. repeat split.
    replace (k - start_page + 1) with ((k - start_page) + 1) by lia.
    rewrite seqZ_app by lia.
    replace (start_page + (k - start_page)) with k by lia.
    reflexivity.
  - apply list_elem_of_In, elem_of_seqZ in Hp. lia.
Qed.

Lemma get_videos_unreadable_page_witness :
  fst (get_videos api_number_page 0 2 indexed) = Raise TypeError /\
  obj (snd (get_videos api_number_page 0 2 indexed)) = obj indexed /\
  trace (snd (get_videos api_number_page 0 2 indexed)) = [page_request 0; page_request 1].
Proof.
  apply (get_videos_unreadable_page api_number_page 0 2 1 indexed).
  - lia.
  - intros p Hp. assert (p = 0) as -> by lia. split; reflexivity.
  - reflexivity.
Defined.

(** ** Listings with incomplete entries, failed bootstrap *)

Lemma motion_entries_run (entries : list json) (w : world) :
  forallb listing_entry_ok entries = true ->
  for_each motion_entry entries w =
  (Ok tt,
   {| obj := record_all entries (obj w);
      log := log w ++ map (fun _ => (DEBUG, "No new videos since last refresh."))
                        (skipped entries);
      trace := trace w |}).
Proof.
  revert w. induction entries as [|entry entries IH]; intros w Hok.
  - simpl. rewrite app_nil_r. destruct w; reflexivity.
  - simpl in Hok. apply andb_prop in Hok. destruct Hok as [Hentry Hrest].
    cbn [for_each]. rewrite run_bind, motion_entry_run.
    unfold record_all, skipped. cbn [fold_left List.filter].
    destruct (listing_entry_ok_reads entry Hentry) as [(k & r & ->)| ->].
    + rewrite (IH _ Hrest). reflexivity.
    + rewrite (IH _ Hrest). simpl. rewrite <- app_assoc. reflexivity.
Qed.

(** X11. On a listing that is a list of dicts with hashable camera names,
    [check_new_videos] returns [True] and processes the entries in order: an
    entry that has its three fields records its clip, so the last clip of a
    camera wins; an entry that lacks one of them changes nothing and costs
    one debug record, and the entries after it are still processed. *)
Theorem check_new_videos_skips (api : transport) (w : world) (entries : list json) :
  getitem (api (listing_request w)) "videos" = Ok (JList entries) ->
  forallb listing_entry_ok entries = true ->
  let w' := snd (check_new_videos api w) in
  fst (check_new_videos api w) = Ok true /\
  obj w' = record_all entries (obj (after_reset w)) /\
  log w' = log w ++ map (fun _ => (DEBUG, "No new videos since last refresh."))
                      (skipped entries).
Proof.
  intros Hinfo Hok w'. subst w'.
  rewrite check_new_videos_run, Hinfo. simpl py_iter. cbv iota.
  rewrite run_bind, (motion_entries_run entries (after_reset w) Hok).
  repeat split.
Qed.

Lemma check_new_videos_skips_witness :
  fst (check_new_videos api_gap_listing fresh) = Ok true /\
  last_record (obj (snd (check_new_videos api_gap_listing fresh))) !! KStr "Cam1" =
    Some (JObj [("clip", JStr "/a3"); ("time", JStr "t3")]) /\
  log (snd (check_new_videos api_gap_listing fresh)) =
    [(DEBUG, "No new videos since last refresh.")].
Proof.
  destruct (check_new_videos_skips api_gap_listing fresh
              [JObj [("camera_name", JStr "Cam1"); ("address", JStr "/a1");
                     ("created_at", JStr "t1")];
               JObj [("camera_name", JStr "Cam1"); ("created_at", JStr "t2")];
               JObj [("camera_name", JStr "Cam1"); ("address", JStr "/a3");
                     ("created_at", JStr "t3")]] eq_refl eq_refl)
    as (Hret & Hobj & Hlog).
  split; [exact Hret|]. split; [rewrite Hobj; vm_compute; reflexivity|exact Hlog].
Defined.

Lemma start_tail_not_false (api : transport) (w : world) :
  fst (start_tail api w) <> Ok false.
Proof.
  unfold start_tail. repeat (apply bind_not_false; intros). discriminate.
Qed.

(** X4. A bootstrap that returns [False] has issued the module-status request
    and nothing else, and has logged exactly one error. *)
Theorem start_failure_requests (api : transport) (w : world) :
  fst (start api w) = Ok false ->
  trace (snd (start api w)) = trace w ++ [request_syncmodule (network_id (obj w))] /\
  log (snd (start api w)) =
    log w ++ [(ERROR, "Could not retrieve sync module information")].
Proof.
  set (response := api (request_syncmodule (network_id (obj w)))).
  destruct (getitem response "syncmodule") as [v|e] eqn:Hresp.
  - destruct (getitem v "network_id") as [n|e] eqn:Hnet.
    + destruct (start_head api w v n Hresp Hnet) as (l & ->).
      intros Hfalse. exfalso. exact (start_tail_not_false api _ Hfalse).
    + intros _. unfold start. do 2 gstep. fold response.
      rewrite run_bind, run_try. gstep. rewrite Hresp. do 3 gstep.
      simpl summary. rewrite Hnet, (getitem_raises _ _ _ Hnet). gstep.
      split; reflexivity.
  - intros _. unfold start. do 2 gstep. fold response.
    rewrite run_bind, run_try. gstep. rewrite Hresp, (getitem_raises _ _ _ Hresp). gstep.
    split; reflexivity.
Qed.

Lemma start_failure_requests_witness :
  trace (snd (start api_no_network fresh)) = [request_syncmodule (JNum 7)] /\
  log (snd (start api_no_network fresh)) =
    [(ERROR, "Could not retrieve sync module information")].
Proof.
  apply (start_failure_requests api_no_network fresh). vm_compute. reflexivity.
Defined.
